(** * Expectations over a pandas DataFrame

    A shallow embedding of [pandas_expectations.py]: the class
    [PandasExpectations] (a [pd.DataFrame] with [expect_*] methods) and the
    properties of its checks.

    The methods read the frame through pandas ([self.columns], [self[c]],
    [.dtype], [.notnull()], [.unique()], [.mean()]) and write diagnostics with
    [print].  They are embedded in a small state-and-exception monad over a
    world made of the frame and the text written so far.  What pandas leaves
    to the data ([isnull] on a value, [==] between a dtype and the expected
    type, the floating-point mean of a column, whether a value equals itself,
    which NaN does not) is a parameter of the model. *)

From Stdlib Require Import ZArith String Ascii List Bool Lia.
From Stdlib Require Import Floats.SpecFloat Sorting.Sorted.
From stdpp Require Import base option list strings gmap sets.

Local Open Scope string_scope.
Local Open Scope list_scope.

(** ** Python values that do not depend on the frame *)

(** Exceptions the methods can end with. *)
Inductive exn : Type :=
  | KeyError (key : string)
  | AttributeError (attr : string)
  | TypeError
  | ValueError.

(** The outcome of evaluating an expression: a value or a raised exception. *)
Inductive result (A : Type) : Type :=
  | Ok (a : A)
  | Raise (e : exn).
Arguments Ok {A} a.
Arguments Raise {A} e.

(** A row label of the frame's index. *)
Inductive label : Type :=
  | LInt (i : Z)
  | LStr (s : string).

(** [sorted] on a list of [str]: the list in ascending order of [<=] on
    strings.  The order is total and antisymmetric, so every correct sorting
    algorithm returns this same list (see [sorted_unique] below); it is
    written here as insertion from the right. *)
Fixpoint insert_sorted (x : string) (l : list string) : list string :=
  match l with
  | [] => [x]
  | y :: r => if String.leb x y then x :: y :: r else y :: insert_sorted x r
  end.

Definition sorted (l : list string) : list string :=
  foldr insert_sorted [] l.

(** [all(xs)] and [any(xs)] on a list of booleans. *)
Definition all (xs : list bool) : bool := forallb id xs.
Definition any (xs : list bool) : bool := existsb id xs.

(** A [dict] with [str] keys, in insertion order. *)
Definition dict (V : Type) : Type := list (string * V).

Definition dict_keys {V} (d : dict V) : list string := map fst d.

Fixpoint dict_get {V} (d : dict V) (k : string) : option V :=
  match d with
  | [] => None
  | (k', v) :: r => if String.eqb k k' then Some v else dict_get r k
  end.

(** [d[k]]. *)
Definition dict_getitem {V} (d : dict V) (k : string) : result V :=
  match dict_get d k with
  | Some v => Ok v
  | None => Raise (KeyError k)
  end.

(** Python's [float]: IEEE 754 binary64, compared with [SFleb], [SFltb] and
    [SFeqb]. *)
Abbreviation float := spec_float.

(** ** The frame *)

Section Frame.

(** [value]: what a cell holds, with the frame's native equality;
    [dtype]: the dtype of a column; [target]: the expected types of a schema
    (any Python object). *)
Context {value : Type} `{Countable value}.
Context {dtype target : Type}.

(** [isnull v]: pandas' test for a missing value. *)
Variable isnull : value -> bool.
(** [dtype_eq d t]: the truth of [d == t] for a dtype [d]. *)
Variable dtype_eq : dtype -> target -> bool.

(** A column: its dtype and its values, top to bottom. *)
Record Column : Type := mkColumn {
  col_dtype : dtype;
  col_values : list value
}.

(** [series_mean c]: [Series.mean()] on column [c]; it raises on a column
    that has no mean (text, for instance). *)
Variable series_mean : Column -> result float.

(** [eq_self v]: whether Python finds a value [v] read from a column equal to
    itself ([v == v], or the very same object).  It does for numbers and
    text; it does not for NaN, the missing number of a numeric column. *)
Variable eq_self : value -> bool.

(** A [pd.DataFrame]: the row index and the labelled columns, left to right.
    pandas allows the same label on several columns. *)
Record DataFrame : Type := mkDataFrame {
  index : list label;
  data : list (string * Column)
}.

(** [PandasExpectations] is a [pd.DataFrame] with more methods, and
    [from_pandas] builds one over the given frame. *)
Definition PandasExpectations : Type := DataFrame.
Definition from_pandas (dataset : DataFrame) : PandasExpectations := dataset.

(** [df.columns], as a list. *)
Definition df_columns (df : DataFrame) : list string := map fst (data df).

(** What indexing a frame gives: a [Series] (the rows' index and one column)
    or, for a label carried by several columns, the frame of those columns. *)
Inductive pdobj : Type :=
  | PSeries (idx : list label) (c : Column)
  | PFrame (df : DataFrame).

(** [df[key]]. *)
Definition df_getitem (df : DataFrame) (key : string) : result pdobj :=
  match List.filter (fun p => String.eqb (fst p) key) (data df) with
  | [] => Raise (KeyError key)
  | [(_, c)] => Ok (PSeries (index df) c)
  | cs => Ok (PFrame (mkDataFrame (index df) cs))
  end.

(** [df.name] for a [name] that is no attribute of the class: pandas falls
    back to the column of that label and raises [AttributeError] when there is
    none. *)
Definition df_getattr (df : DataFrame) (name : string) : result pdobj :=
  if existsb (String.eqb name) (df_columns df) then df_getitem df name
  else Raise (AttributeError name).

(** [key in o] for a string [key]: membership in the index of a series, in
    the column labels of a frame. *)
Definition pd_contains (o : pdobj) (key : string) : bool :=
  match o with
  | PSeries idx _ =>
      existsb (fun l => match l with LStr s => String.eqb s key | LInt _ => false end) idx
  | PFrame df => existsb (String.eqb key) (df_columns df)
  end.

(** [o.dtype]: a series has one; on a frame the name falls back to a column
    labelled ["dtype"]. *)
Definition pd_dtype (o : pdobj) : result (dtype + pdobj) :=
  match o with
  | PSeries _ c => Ok (inl (col_dtype c))
  | PFrame df =>
      match df_getattr df "dtype" with
      | Ok o' => Ok (inr o')
      | Raise e => Raise e
      end
  end.

(** The truth values [all] sees in [o.notnull()]: one per value of a series;
    iterating a frame yields its column labels, true when not empty. *)
Definition pd_notnull (o : pdobj) : list bool :=
  match o with
  | PSeries _ c => map (fun v => negb (isnull v)) (col_values c)
  | PFrame df => map (fun l => negb (String.eqb l "")) (df_columns df)
  end.

(** [Series.unique()]: the values in order of first appearance. *)
Fixpoint unique_from (seen : list value) (l : list value) : list value :=
  match l with
  | [] => []
  | v :: r =>
      if bool_decide (v ∈ seen) then unique_from seen r
      else v :: unique_from (v :: seen) r
  end.

Definition unique (l : list value) : list value := unique_from [] l.

(** [v in set_] for a value [v] read from a column: the set holds the value
    (in the frame's equality, by which [unique] tells values apart) and
    Python finds [v] equal to that element.  So a NaN is in no set, not even
    in one that holds NaN. *)
Definition py_in (v : value) (set_ : gset value) : bool :=
  bool_decide (v ∈ set_) && eq_self v.

(** [o.unique()]: a frame has no such method; the name falls back to a column
    labelled ["unique"], which cannot be called. *)
Definition pd_unique (o : pdobj) : result (list value) :=
  match o with
  | PSeries _ c => Ok (unique (col_values c))
  | PFrame df =>
      match df_getattr df "unique" with
      | Ok _ => Raise TypeError
      | Raise e => Raise e
      end
  end.

(** [o.mean()]: a number for a series; for a frame the series of its columns'
    means ([inr]), the first column without a mean raising. *)
Fixpoint frame_means (cs : list (string * Column)) : result (list float) :=
  match cs with
  | [] => Ok []
  | (_, c) :: r =>
      match series_mean c with
      | Ok m => match frame_means r with Ok ms => Ok (m :: ms) | Raise e => Raise e end
      | Raise e => Raise e
      end
  end.

Definition pd_mean (o : pdobj) : result (float + list float) :=
  match o with
  | PSeries _ c => match series_mean c with Ok m => Ok (inl m) | Raise e => Raise e end
  | PFrame df => match frame_means (data df) with Ok ms => Ok (inr ms) | Raise e => Raise e end
  end.

(** ** Diagnostics and the world *)

(** What [print] writes, one constructor per message of the source, holding
    the values the message formats. *)
Inductive diag : Type :=
  (* f"{colname} not included in {self.colnames}" *)
  | NotIncluded (colname : string) (colnames : pdobj)
  (* f"The DataFrame has {len(self.columns)} but should have {len(columns)}." *)
  | ColumnCount (has should_have : nat)
  (* f"The DataFrame misses the following columns: {missing_columns}" *)
  | MissesColumns (missing_columns : list string)
  (* f"'{colname}' is of type {actual_dtype} but should be {target_dtype}" *)
  | WrongDtype (colname : string) (actual_dtype : dtype) (target_dtype : target)
  (* f"{value} is not in {set_}" *)
  | IsNotIn (v : value) (set_ : gset value)
  (* f"Value {value} is in column {colname} but it should not be." *)
  | ShouldNotBe (v : value) (colname : string)
  (* f"{value} is in {set_}" *)
  | IsIn (v : value) (set_ : gset value).

(** The state a method runs in: the frame it is called on ([self]) and the
    text written to standard output so far. *)
Record World : Type := mkWorld {
  frame : DataFrame;
  stdout : list diag
}.

(** A computation: from a world to the world it leaves and its outcome. *)
Definition M (A : Type) : Type := World -> World * result A.

Definition ret {A} (a : A) : M A := fun w => (w, Ok a).

Definition raise {A} (e : exn) : M A := fun w => (w, Raise e).

Definition bind {A B} (m : M A) (k : A -> M B) : M B :=
  fun w =>
    match m w with
    | (w', Ok a) => k a w'
    | (w', Raise e) => (w', Raise e)
    end.

(** An expression that reads no state. *)
Definition lift {A} (r : result A) : M A := fun w => (w, r).

(** An expression over [self]. *)
Definition self {A} (f : DataFrame -> result A) : M A := fun w => (w, f (frame w)).

Definition print (d : diag) : M unit :=
  fun w => (mkWorld (frame w) (stdout w ++ [d]), Ok tt).

(** [for x in xs: body], the local variables the body assigns threaded as
    [acc]. *)
Fixpoint for_ {A S} (xs : list A) (acc : S) (body : A -> S -> M S) : M S :=
  match xs with
  | [] => ret acc
  | x :: r => bind (body x acc) (fun acc' => for_ r acc' body)
  end.

(** [if c: body] with no [else]. *)
Definition when (c : bool) (body : M unit) : M unit :=
  if c then body else ret tt.

Notation "x <- m ;; k" := (bind m (fun x => k))
  (at level 100, m at level 99, right associativity, only parsing).
Notation "m ;; k" := (bind m (fun _ => k))
  (at level 100, right associativity, only parsing).

(** ** The methods of [PandasExpectations] *)

Definition expect_dataframe_to_have_columns (columns : list string) : M bool :=
  lists <- for_ columns ([], [])
    (fun colname '(colnames_in_df, colnames_not_in_df) =>
       colnames <- self (fun df => df_getattr df "colnames") ;;
       if pd_contains colnames colname
       then ret (colnames_in_df ++ [colname], colnames_not_in_df)
       else ret (colnames_in_df, colnames_not_in_df ++ [colname])) ;;
  let colnames_not_in_df := snd lists in
  if Nat.eqb (length colnames_not_in_df) 0 then
    for_ colnames_not_in_df tt
      (fun colname _ =>
         colnames <- self (fun df => df_getattr df "colnames") ;;
         print (NotIncluded colname colnames)) ;;
    ret false
  else ret true.

Definition expect_columns_to_be_equal (columns : list string) : M bool :=
  self_columns <- self (fun df => Ok (df_columns df)) ;;
  let sorted_df_columns := sorted self_columns in
  let sorted_expected_columns := sorted columns in
  if bool_decide (sorted_df_columns <> sorted_expected_columns) then
    when (negb (Nat.eqb (length columns) (length self_columns)))
      (print (ColumnCount (length self_columns) (length columns))) ;;
    let missing_columns :=
      List.filter (fun c => negb (existsb (String.eqb c) sorted_df_columns))
        sorted_expected_columns in
    print (MissesColumns missing_columns) ;;
    ret false
  else ret true.

Definition expect_schema_to_be_equal (expected_schema : dict target) : M bool :=
  columns_have_correct_dtype <- for_ (dict_keys expected_schema) []
    (fun colname columns_have_correct_dtype =>
       column <- self (fun df => df_getitem df colname) ;;
       actual_dtype <- lift (pd_dtype column) ;;
       target_dtype <- lift (dict_getitem expected_schema colname) ;;
       match actual_dtype with
       | inl actual_dtype =>
           let is_correct_dtype := dtype_eq actual_dtype target_dtype in
           when (negb is_correct_dtype)
             (print (WrongDtype colname actual_dtype target_dtype)) ;;
           ret (columns_have_correct_dtype ++ [is_correct_dtype])
       | inr _ =>
           (* [==] on a frame is a frame, and [not] of one raises *)
           raise ValueError
       end) ;;
  ret (all columns_have_correct_dtype).

Definition expect_column_values_to_not_be_null (colname : string) : M bool :=
  column <- self (fun df => df_getitem df colname) ;;
  ret (all (pd_notnull column)).

Definition expect_column_values_to_be_in_set (colname : string) (set_ : gset value)
  : M bool :=
  column <- self (fun df => df_getitem df colname) ;;
  values <- lift (pd_unique column) ;;
  value_is_in_set <- for_ values []
    (fun v value_is_in_set =>
       if py_in v set_ then ret (value_is_in_set ++ [true])
       else
         print (IsNotIn v set_) ;;
         ret (value_is_in_set ++ [false])) ;;
  ret (all value_is_in_set).

Definition expect_column_values_to_be_a_subset_of (colname : string)
  (superset : gset value) : M bool :=
  column <- self (fun df => df_getitem df colname) ;;
  values <- lift (pd_unique column) ;;
  values_not_in_superset <- for_ values []
    (fun v values_not_in_superset =>
       if negb (py_in v superset) then ret (values_not_in_superset ++ [v])
       else ret values_not_in_superset) ;;
  if Nat.eqb (length values_not_in_superset) 0 then ret true
  else
    for_ values_not_in_superset tt
      (fun v _ => print (ShouldNotBe v colname)) ;;
    ret false.

Definition expect_column_values_to_not_be_in_set (colname : string)
  (set_ : gset value) : M bool :=
  column <- self (fun df => df_getitem df colname) ;;
  values <- lift (pd_unique column) ;;
  value_in_set <- for_ values []
    (fun v value_in_set =>
       if py_in v set_ then
         print (IsIn v set_) ;;
         ret (value_in_set ++ [true])
       else ret (value_in_set ++ [false])) ;;
  ret (negb (any value_in_set)).

Definition expect_column_mean_to_be_between (colname : string)
  (strict_min strict_max : float) : M bool :=
  column <- self (fun df => df_getitem df colname) ;;
  mean <- lift (pd_mean column) ;;
  match mean with
  | inl mean => ret (SFleb strict_min mean && SFleb mean strict_max)
  | inr _ =>
      (* comparing a series gives a series, whose truth value [and] cannot take *)
      raise ValueError
  end.

(** ** The loop bodies, named

    The bodies of the first loop of [expect_dataframe_to_have_columns] and of
    the loop of [expect_schema_to_be_equal], as they stand in the methods
    above ([expect_have_columns_unfold] and [expect_schema_unfold] below). *)

Definition have_columns_loop_body (colname : string) (acc : list string * list string)
  : M (list string * list string) :=
  let '(colnames_in_df, colnames_not_in_df) := acc in
  colnames <- self (fun df => df_getattr df "colnames") ;;
  if pd_contains colnames colname
  then ret (colnames_in_df ++ [colname], colnames_not_in_df)
  else ret (colnames_in_df, colnames_not_in_df ++ [colname]).

Definition schema_loop_body (expected_schema : dict target)
  (colname : string) (columns_have_correct_dtype : list bool) : M (list bool) :=
  column <- self (fun df => df_getitem df colname) ;;
  actual_dtype <- lift (pd_dtype column) ;;
  target_dtype <- lift (dict_getitem expected_schema colname) ;;
  match actual_dtype with
  | inl actual_dtype =>
      let is_correct_dtype := dtype_eq actual_dtype target_dtype in
      when (negb is_correct_dtype)
        (print (WrongDtype colname actual_dtype target_dtype)) ;;
      ret (columns_have_correct_dtype ++ [is_correct_dtype])
  | inr _ => raise ValueError
  end.

(** ** Vocabulary of the properties *)

(** The outcome of a method call and the diagnostics it wrote. *)
Definition result_of {A} (m : M A) (w : World) : result A := snd (m w).

Definition written_by {A} (m : M A) (w : World) : list diag :=
  drop (length (stdout w)) (stdout (fst (m w))).

(** [c] labels a column of [df], namely [col]: [df[c]] is that series. *)
Definition column_at (df : DataFrame) (c : string) (col : Column) : Prop :=
  df_getitem df c = Ok (PSeries (index df) col).

(** The set of distinct values of a column. *)
Definition distinct_values (col : Column) : gset value :=
  list_to_set (col_values col).

(** The set of names of a list of column names. *)
Definition name_set (l : list string) : gset string := list_to_set l.

(** How often a name occurs in a list of column names. *)
Definition multiplicity (c : string) (l : list string) : nat :=
  count_occ String.string_dec l c.

(** [col] with [v] inserted before position [i]. *)
Definition insert_value (i : nat) (v : value) (col : Column) : Column :=
  mkColumn (col_dtype col) (take i (col_values col) ++ v :: drop i (col_values col)).

(** [df[k].dtype == t] where [k] labels a column. *)
Definition column_has_dtype (df : DataFrame) (k : string) (t : target) : bool :=
  match df_getitem df k with
  | Ok (PSeries _ col) => dtype_eq (col_dtype col) t
  | _ => false
  end.

(** The check of one entry of a schema: the column labelled [k] has the
    dtype the schema gives for [k]. *)
Definition schema_entry_ok (df : DataFrame) (expected_schema : dict target)
  (k : string) : bool :=
  match dict_get expected_schema k with
  | Some t => column_has_dtype df k t
  | None => false
  end.

(** The messages of the schema check for the keys [ks]: one for each key
    whose column has another dtype than the schema gives, in the order of the
    keys. *)
Definition schema_mismatches (df : DataFrame) (expected_schema : dict target)
  (ks : list string) : list diag :=
  flat_map
    (fun k =>
       match df_getitem df k, dict_get expected_schema k with
       | Ok (PSeries _ col), Some t =>
           if dtype_eq (col_dtype col) t then []
           else [WrongDtype k (col_dtype col) t]
       | _, _ => []
       end) ks.

(** A call of one of the checks, with its arguments. *)
Inductive check : Type :=
  | HaveColumns (columns : list string)
  | ColumnsEqual (columns : list string)
  | SchemaEqual (expected_schema : dict target)
  | NotNull (colname : string)
  | InSet (colname : string) (set_ : gset value)
  | SubsetOf (colname : string) (superset : gset value)
  | NotInSet (colname : string) (set_ : gset value)
  | MeanBetween (colname : string) (strict_min strict_max : float).

Definition run_check (c : check) : M bool :=
  match c with
  | HaveColumns columns => expect_dataframe_to_have_columns columns
  | ColumnsEqual columns => expect_columns_to_be_equal columns
  | SchemaEqual expected_schema => expect_schema_to_be_equal expected_schema
  | NotNull colname => expect_column_values_to_not_be_null colname
  | InSet colname set_ => expect_column_values_to_be_in_set colname set_
  | SubsetOf colname superset => expect_column_values_to_be_a_subset_of colname superset
  | NotInSet colname set_ => expect_column_values_to_not_be_in_set colname set_
  | MeanBetween colname strict_min strict_max =>
      expect_column_mean_to_be_between colname strict_min strict_max
  end.

(** A computation that only reads the frame and appends to the output: from
    a given frame it writes the same messages and ends the same way, whatever
    was written before. *)
Definition reads_only {A} (m : M A) : Prop :=
  forall df, exists msgs r, forall out,
    m (mkWorld df out) = (mkWorld df (out ++ msgs), r).

End Frame.

(** ** A concrete frame

    Cells hold integers or nothing ([None] is NaN, the missing value of a
    column of numbers, which Python does not find equal to itself), dtypes and
    expected types are written by name, and the mean of a column is the
    quotient of the sum and the count of the values present, both exact in
    binary64 for the small integers used here. *)

Definition cell : Type := option Z.

Definition cell_isnull (v : cell) : bool :=
  match v with None => true | Some _ => false end.

Definition cell_eq_self (v : cell) : bool :=
  match v with None => false | Some _ => true end.

Definition float_of_Z (z : Z) : float := binary_normalize 53 1024 z 0 false.

Definition cell_mean (c : @Column cell string) : result float :=
  let present := omap id (col_values c) in
  Ok (SFdiv 53 1024 (float_of_Z (foldr Z.add 0%Z present))
        (float_of_Z (Z.of_nat (length present)))).

Definition int_column (vs : list Z) : @Column cell string :=
  mkColumn "int64" (map Some vs).

(** [pd.DataFrame({'A': [1, 2, 3], 'B': [4, 5, 6]})]. *)
Definition df_AB : @DataFrame cell string :=
  mkDataFrame [LInt 0; LInt 1; LInt 2]
    [("A", int_column [1; 2; 3]%Z); ("B", int_column [4; 5; 6]%Z)].

(** A frame with the single column [A]. *)
Definition df_A : @DataFrame cell string :=
  mkDataFrame [LInt 0; LInt 1; LInt 2] [("A", int_column [1; 2; 3]%Z)].

(** [pd.DataFrame([[1, 4]], columns=['A', 'A'])]: two columns labelled [A]. *)
Definition df_AA : @DataFrame cell string :=
  mkDataFrame [LInt 0] [("A", int_column [1]%Z); ("A", int_column [4]%Z)].

(** A frame with a column labelled [colnames], its rows labelled [A] and
    [B]. *)
Definition df_colnames : @DataFrame cell string :=
  mkDataFrame [LStr "A"; LStr "B"] [("colnames", int_column [1; 2]%Z)].

(** A frame with no row: its column [A] has no value. *)
Definition df_empty : @DataFrame cell string :=
  mkDataFrame [] [("A", int_column [])].

(** [pd.DataFrame({'A': [1, None]})]: the column [A] holds 1 and NaN. *)
Definition df_nan : @DataFrame cell string :=
  mkDataFrame [LInt 0; LInt 1] [("A", mkColumn "float64" [Some 1%Z; None])].

(** A world with nothing written yet. *)
Definition fresh (df : @DataFrame cell string) : @World cell _ _ string string :=
  mkWorld df [].

(** ** [sorted] returns the sorted rearrangement *)

Lemma string_compare_lt_trans x :
  forall y z, String.compare x y = Lt -> String.compare y z = Lt -> String.compare x z = Lt.
Proof.
  induction x as [|a x IH]; intros [|b y] [|c z]; simpl; try done.
  unfold Ascii.compare.
  destruct (N.compare_spec (N_of_ascii a) (N_of_ascii b)) as [Hab|Hab|Hab];
  destruct (N.compare_spec (N_of_ascii b) (N_of_ascii c)) as [Hbc|Hbc|Hbc];
  destruct (N.compare_spec (N_of_ascii a) (N_of_ascii c)) as [Hac|Hac|Hac];
    try done; try lia; eauto.
Qed.

Lemma string_leb_trans x y z :
  String.leb x y = true -> String.leb y z = true -> String.leb x z = true.
Proof.
  unfold String.leb.
  destruct (String.compare x y) eqn:Hxy; try done;
  destruct (String.compare y z) eqn:Hyz; try done; intros _ _.
  - apply String.compare_eq_iff in Hxy as ->. by rewrite Hyz.
  - apply String.compare_eq_iff in Hxy as ->. by rewrite Hyz.
  - apply String.compare_eq_iff in Hyz as <-. by rewrite Hxy.
  - by rewrite (string_compare_lt_trans _ _ _ Hxy Hyz).
Qed.

Lemma insert_sorted_perm x l : insert_sorted x l ≡ₚ x :: l.
Proof.
  induction l as [|y l IH]; simpl; [done|].
  destruct (String.leb x y); [done|].
  rewrite IH. apply Permutation_swap.
Qed.

Lemma sorted_perm l : sorted l ≡ₚ l.
Proof.
  induction l as [|x l IH]; simpl; [done|].
  by rewrite insert_sorted_perm, IH.
Qed.

Lemma insert_sorted_comm x y l :
  insert_sorted x (insert_sorted y l) = insert_sorted y (insert_sorted x l).
Proof.
  induction l as [|z l IH]; simpl.
  - destruct (String.leb x y) eqn:Hxy, (String.leb y x) eqn:Hyx; try done.
    + by rewrite (String.leb_antisym _ _ Hxy Hyx).
    + destruct (String.leb_total x y); congruence.
  - destruct (String.leb x z) eqn:Hxz, (String.leb y z) eqn:Hyz; simpl;
      rewrite ?Hxz, ?Hyz;
      destruct (String.leb x y) eqn:Hxy, (String.leb y x) eqn:Hyx;
      try done; try (by rewrite IH);
      try (by rewrite (String.leb_antisym _ _ Hxy Hyx));
      try (destruct (String.leb_total x y); congruence).
    all: first [ by rewrite (string_leb_trans _ _ _ Hyx Hxz) in Hyz
               | by rewrite (string_leb_trans _ _ _ Hxy Hyz) in Hxz ].
Qed.

Lemma sorted_Permutation l l' : l ≡ₚ l' -> sorted l = sorted l'.
Proof.
  induction 1 as [|x l l' _ IH|x y l|l l' l'' _ IH1 _ IH2]; simpl.
  - done.
  - by rewrite IH.
  - apply insert_sorted_comm.
  - by rewrite IH1.
Qed.

Lemma sorted_eq_iff l l' : sorted l = sorted l' <-> l ≡ₚ l'.
Proof.
  split; [|apply sorted_Permutation].
  intros Heq. by rewrite <- (sorted_perm l), Heq, sorted_perm.
Qed.

Lemma insert_sorted_Sorted x l :
  Sorted (fun a b => String.leb a b = true) l ->
  Sorted (fun a b => String.leb a b = true) (insert_sorted x l).
Proof.
  induction 1 as [|y l Hl IH Hhd]; simpl.
  - by repeat constructor.
  - destruct (String.leb x y) eqn:Hxy.
    + by repeat constructor.
    + constructor; [done|].
      assert (String.leb y x = true) as Hyx
        by (destruct (String.leb_total x y); congruence).
      destruct Hhd as [|z l Hyz]; simpl; [by constructor|].
      destruct (String.leb x z); by constructor.
Qed.

Lemma sorted_Sorted l : Sorted (fun a b => String.leb a b = true) (sorted l).
Proof.
  induction l as [|x l IH]; simpl; [constructor|].
  by apply insert_sorted_Sorted.
Qed.

Lemma sorted_id s : Sorted (fun a b => String.leb a b = true) s -> sorted s = s.
Proof.
  induction 1 as [|x s Hs IH Hhd]; simpl; [done|].
  rewrite IH. destruct Hhd as [|y s Hxy]; simpl; [done|]. by rewrite Hxy.
Qed.

Lemma sorted_unique l s :
  Sorted (fun a b => String.leb a b = true) s -> s ≡ₚ l -> s = sorted l.
Proof.
  intros Hs Hp. rewrite <- (sorted_id s Hs). by apply sorted_Permutation.
Qed.

(** ** Comparing floats *)

Lemma SFcompare_antisym x y :
  SFcompare y x = option_map CompOpp (SFcompare x y).
Proof.
  destruct x as [sx|sx| |sx mx ex], y as [sy|sy| |sy my ey]; simpl;
    try done; try (by destruct sx); try (by destruct sy);
    try (by destruct sx, sy).
  destruct sx, sy; simpl; try done;
    rewrite (Z.compare_antisym ex ey); destruct (ex ?= ey)%Z; simpl; try done;
    by rewrite ?(Pos.compare_cont_antisym mx my Eq).
Qed.

Lemma SFeqb_compare x y z :
  SFeqb x y = true -> SFcompare x z = SFcompare y z.
Proof.
  unfold SFeqb.
  destruct x as [sx|sx| |sx mx ex], y as [sy|sy| |sy my ey]; simpl;
    try done; try (by destruct sx); try (by destruct sy).
  - by destruct sx, sy.
  - destruct sx, sy; try done;
      destruct (ex ?= ey)%Z eqn:He; try done;
      apply Z.compare_eq in He as ->;
      destruct (Pos.compare_cont Eq mx my) eqn:Hm; try done;
      by apply Pos.compare_eq in Hm as ->.
Qed.

Lemma SFltb_not_leb x y : SFltb x y = true -> SFleb y x = false.
Proof.
  unfold SFltb, SFleb. rewrite (SFcompare_antisym x y).
  by destruct (SFcompare x y) as [[]|].
Qed.

Lemma SFeqb_sym x y : SFeqb x y = true -> SFeqb y x = true.
Proof.
  unfold SFeqb. rewrite (SFcompare_antisym x y).
  by destruct (SFcompare x y) as [[]|].
Qed.

Lemma SFeqb_leb x y : SFeqb x y = true -> SFleb x y = true.
Proof. unfold SFeqb, SFleb. by destruct (SFcompare x y) as [[]|]. Qed.

Lemma SFleb_eqb_l x y z : SFeqb x y = true -> SFleb x z = SFleb y z.
Proof. intros Heq. unfold SFleb. by rewrite (SFeqb_compare x y z Heq). Qed.

Lemma SFleb_eqb_r x y z : SFeqb x y = true -> SFleb z x = SFleb z y.
Proof.
  intros Heq. unfold SFleb.
  by rewrite (SFcompare_antisym x z), (SFcompare_antisym y z), (SFeqb_compare x y z Heq).
Qed.

(** ** Running computations *)

Section Facts.

Set Default Proof Using "Type".

Context {value : Type} `{Countable value} {dtype target : Type}.

Local Abbreviation World := (@World value _ _ dtype target).
Local Abbreviation M := (@M value _ _ dtype target).
Local Abbreviation DataFrame := (@DataFrame value dtype).
Local Abbreviation Column := (@Column value dtype).

Lemma reads_only_ret {A} (a : A) : reads_only (ret a : M A).
Proof. intros df. exists [], (Ok a). intros out. unfold ret. by rewrite app_nil_r. Qed.

Lemma reads_only_raise {A} e : reads_only (raise e : M A).
Proof. intros df. exists [], (Raise e). intros out. unfold raise. by rewrite app_nil_r. Qed.

Lemma reads_only_lift {A} (r : result A) : reads_only (lift r : M A).
Proof. intros df. exists [], r. intros out. unfold lift. by rewrite app_nil_r. Qed.

Lemma reads_only_self {A} (f : DataFrame -> result A) : reads_only (self f : M A).
Proof. intros df. exists [], (f df). intros out. unfold self. simpl. by rewrite app_nil_r. Qed.

Lemma reads_only_print (d : diag) : reads_only (print d : M unit).
Proof. intros df. by exists [d], (Ok tt). Qed.

Lemma reads_only_bind {A B} (m : M A) (k : A -> M B) :
  reads_only m -> (forall a, reads_only (k a)) -> reads_only (bind m k).
Proof.
  intros Hm Hk df. destruct (Hm df) as (msgs & [a|e] & Hrun).
  - destruct (Hk a df) as (msgs' & r & Hrun').
    exists (msgs ++ msgs'), r. intros out. unfold bind.
    by rewrite Hrun, Hrun', app_assoc.
  - exists msgs, (Raise e). intros out. unfold bind. by rewrite Hrun.
Qed.

Lemma reads_only_for {A S} (xs : list A) (body : A -> S -> M S) :
  (forall x acc, reads_only (body x acc)) -> forall acc, reads_only (for_ xs acc body).
Proof.
  intros Hbody. induction xs as [|x xs IH]; intros acc; simpl.
  - apply reads_only_ret.
  - apply reads_only_bind; [apply Hbody | apply IH].
Qed.

Lemma reads_only_when c (body : M unit) : reads_only body -> reads_only (when c body).
Proof. intros Hb. destruct c; simpl; [done | apply reads_only_ret]. Qed.

Ltac reads_only_step :=
  first
    [ apply reads_only_ret | apply reads_only_raise | apply reads_only_lift
    | apply reads_only_self | apply reads_only_print
    | apply reads_only_when | apply reads_only_for | apply reads_only_bind
    | match goal with
      | |- reads_only (match ?x with _ => _ end) => destruct x
      | |- forall _, _ => intro
      end ].

(** *** Indexing the frame *)

Lemma filter_label_nil (l : list (string * Column)) c :
  List.filter (fun p => String.eqb (fst p) c) l = [] <-> c ∉ map fst l.
Proof.
  induction l as [|[k col] l IH]; simpl.
  - split; [intros _; apply not_elem_of_nil | done].
  - rewrite not_elem_of_cons. destruct (String.eqb_spec k c) as [->|Hne].
    + split; [done | by intros [? _]].
    + rewrite IH. naive_solver.
Qed.

Lemma df_getitem_absent (df : DataFrame) c :
  c ∉ df_columns df -> df_getitem df c = Raise (KeyError c).
Proof.
  intros Hc. unfold df_getitem.
  by rewrite (proj2 (filter_label_nil (data df) c) Hc).
Qed.

Lemma df_getitem_Raise (df : DataFrame) c e :
  df_getitem df c = Raise e -> e = KeyError c /\ c ∉ df_columns df.
Proof.
  unfold df_getitem, df_columns.
  destruct (List.filter _ (data df)) as [|[k col] [|p l]] eqn:Hf; try done.
  intros [= <-]. split; [done|]. by apply filter_label_nil.
Qed.

Lemma column_at_present (df : DataFrame) c col :
  column_at df c col -> c ∈ df_columns df.
Proof.
  unfold column_at. intros Hget.
  destruct (decide (c ∈ df_columns df)) as [|Hc]; [done|].
  by rewrite (df_getitem_absent df c Hc) in Hget.
Qed.

Lemma filter_label_NoDup (l : list (string * Column)) c :
  NoDup (map fst l) -> c ∈ map fst l ->
  exists col, List.filter (fun p => String.eqb (fst p) c) l = [(c, col)].
Proof.
  induction l as [|[k col] l IH]; simpl.
  - intros _ Hc. by apply elem_of_nil in Hc.
  - rewrite NoDup_cons, elem_of_cons. intros [Hk Hnd] Hc.
    destruct (String.eqb_spec k c) as [->|Hne].
    + exists col. by rewrite (proj2 (filter_label_nil l c) Hk).
    + destruct Hc as [->|Hc]; [done|]. by apply IH.
Qed.

Lemma column_at_NoDup (df : DataFrame) c :
  NoDup (df_columns df) -> c ∈ df_columns df -> exists col, column_at df c col.
Proof.
  intros Hnd Hc. destruct (filter_label_NoDup (data df) c Hnd Hc) as [col Hf].
  exists col. unfold column_at, df_getitem. by rewrite Hf.
Qed.

(** *** [unique] *)

Lemma elem_of_unique_from (seen l : list value) v :
  v ∈ unique_from seen l <-> v ∈ l /\ v ∉ seen.
Proof.
  revert seen. induction l as [|x l IH]; intros seen; simpl.
  - rewrite elem_of_nil. naive_solver.
  - case_bool_decide as Hx.
    + rewrite IH, elem_of_cons. naive_solver.
    + rewrite !elem_of_cons, IH, not_elem_of_cons.
      destruct (decide (v = x)); naive_solver.
Qed.

Lemma elem_of_unique (l : list value) v : v ∈ unique l <-> v ∈ l.
Proof.
  unfold unique. rewrite elem_of_unique_from.
  split; [by intros [? _] | intros ?; split; [done | apply not_elem_of_nil]].
Qed.

Lemma NoDup_unique_from (seen l : list value) : NoDup (unique_from seen l).
Proof.
  revert seen. induction l as [|x l IH]; intros seen; simpl.
  - constructor.
  - case_bool_decide; [apply IH|].
    constructor; [|apply IH].
    rewrite elem_of_unique_from, not_elem_of_cons. naive_solver.
Qed.

Lemma NoDup_unique (l : list value) : NoDup (unique l).
Proof. apply NoDup_unique_from. Qed.

Lemma unique_distinct (col : Column) :
  list_to_set (unique (col_values col)) = distinct_values col.
Proof.
  apply set_eq. intros v. unfold distinct_values.
  by rewrite !elem_of_list_to_set, elem_of_unique.
Qed.

(** *** The loops of the methods *)

Lemma world_eta (w : World) : mkWorld (frame w) (stdout w ++ []) = w.
Proof. destruct w; simpl. by rewrite app_nil_r. Qed.

Lemma all_app xs ys : all (xs ++ ys) = all xs && all ys.
Proof. unfold all. apply forallb_app. Qed.

Lemma all_map {A} (f : A -> bool) l : all (map f l) = forallb f l.
Proof. unfold all. induction l as [|x l IH]; simpl; [done|]. by rewrite IH. Qed.

Lemma any_map {A} (f : A -> bool) l : any (map f l) = existsb f l.
Proof. unfold any. induction l as [|x l IH]; simpl; [done|]. by rewrite IH. Qed.

Lemma print_loop {A} (f : A -> diag) (xs : list A) (w : World) :
  for_ xs tt (fun x _ => print (f x)) w
  = (mkWorld (frame w) (stdout w ++ map f xs), Ok tt).
Proof.
  revert w. induction xs as [|x xs IH]; intros w; simpl.
  - unfold ret. by rewrite world_eta.
  - unfold bind, print at 1. rewrite IH. simpl. by rewrite <- app_assoc.
Qed.

(** [eq_self v]: whether Python finds the value [v] equal to itself. *)
Variable eq_self : value -> bool.

Lemma forallb_filter_length {A} (f : A -> bool) (l : list A) :
  forallb f l = Nat.eqb (length (filter (fun x => negb (f x)) l)) 0.
Proof.
  induction l as [|x l IH]; simpl; [done|].
  destruct (f x) eqn:Hx.
  - rewrite filter_cons_False by (by rewrite Hx; intros ?). done.
  - by rewrite filter_cons_True by (by rewrite Hx).
Qed.

Lemma in_set_loop (set_ : gset value) vs acc (w : World) :
  for_ vs acc
    (fun v value_is_in_set =>
       if py_in eq_self v set_ then ret (value_is_in_set ++ [true])
       else bind (print (IsNotIn v set_)) (fun _ => ret (value_is_in_set ++ [false]))) w
  = (mkWorld (frame w)
       (stdout w ++ map (fun v => IsNotIn v set_)
          (filter (fun v => negb (py_in eq_self v set_)) vs)),
     Ok (acc ++ map (fun v => py_in eq_self v set_) vs)).
Proof.
  revert acc w. induction vs as [|v vs IH]; intros acc w; simpl.
  - unfold ret. by rewrite world_eta, app_nil_r.
  - unfold bind at 1. destruct (py_in eq_self v set_) eqn:Hv.
    + unfold ret at 1. rewrite IH, <- app_assoc. simpl.
      by rewrite filter_cons_False by (by rewrite Hv; intros ?).
    + unfold bind at 1, print, ret at 1. rewrite IH, <- !app_assoc. simpl.
      rewrite filter_cons_True by (by rewrite Hv). simpl. by rewrite <- app_assoc.
Qed.

Lemma subset_loop (superset : gset value) vs acc (w : World) :
  for_ vs acc
    (fun v values_not_in_superset =>
       if negb (py_in eq_self v superset) then ret (values_not_in_superset ++ [v])
       else ret values_not_in_superset) w
  = (w, Ok (acc ++ filter (fun v => negb (py_in eq_self v superset)) vs)).
Proof.
  revert acc w. induction vs as [|v vs IH]; intros acc w; simpl.
  - unfold ret. by rewrite app_nil_r.
  - unfold bind at 1. destruct (py_in eq_self v superset) eqn:Hv; simpl;
      unfold ret at 1; rewrite IH.
    + by rewrite filter_cons_False by (by rewrite Hv; intros ?).
    + rewrite filter_cons_True by (by rewrite Hv). by rewrite <- app_assoc.
Qed.

Lemma not_in_set_loop (set_ : gset value) vs acc (w : World) :
  for_ vs acc
    (fun v value_in_set =>
       if py_in eq_self v set_ then
         bind (print (IsIn v set_)) (fun _ => ret (value_in_set ++ [true]))
       else ret (value_in_set ++ [false])) w
  = (mkWorld (frame w)
       (stdout w ++ map (fun v => IsIn v set_)
          (filter (fun v => py_in eq_self v set_) vs)),
     Ok (acc ++ map (fun v => py_in eq_self v set_) vs)).
Proof.
  revert acc w. induction vs as [|v vs IH]; intros acc w; simpl.
  - unfold ret. by rewrite world_eta, app_nil_r.
  - unfold bind at 1. destruct (py_in eq_self v set_) eqn:Hv.
    + unfold bind at 1, print, ret at 1. rewrite IH, <- !app_assoc. simpl.
      rewrite filter_cons_True by (by rewrite Hv). simpl. by rewrite <- app_assoc.
    + unfold ret at 1. rewrite IH, <- app_assoc. simpl.
      by rewrite filter_cons_False by (by rewrite Hv; intros ?).
Qed.

(** *** What each method computes on a column *)

(** [isnull v]: pandas' test for a missing value. *)
Variable isnull : value -> bool.

Lemma not_null_run (w : World) c col :
  column_at (frame w) c col ->
  expect_column_values_to_not_be_null isnull c w
  = (w, Ok (forallb (fun v => negb (isnull v)) (col_values col))).
Proof.
  unfold column_at, expect_column_values_to_not_be_null, bind, self, ret.
  intros ->. simpl. by rewrite all_map.
Qed.

Lemma in_set_run (w : World) c col (set_ : gset value) :
  column_at (frame w) c col ->
  expect_column_values_to_be_in_set eq_self c set_ w
  = (mkWorld (frame w)
       (stdout w ++ map (fun v => IsNotIn v set_)
          (filter (fun v => negb (py_in eq_self v set_)) (unique (col_values col)))),
     Ok (forallb (fun v => py_in eq_self v set_) (unique (col_values col)))).
Proof.
  unfold column_at, expect_column_values_to_be_in_set.
  unfold bind at 1, self. intros ->. simpl.
  unfold bind at 1, lift. unfold bind at 1. rewrite in_set_loop.
  unfold ret. simpl. by rewrite all_map.
Qed.

Lemma subset_run (w : World) c col (superset : gset value) :
  column_at (frame w) c col ->
  expect_column_values_to_be_a_subset_of eq_self c superset w
  = (mkWorld (frame w)
       (stdout w ++ map (fun v => ShouldNotBe v c)
          (filter (fun v => negb (py_in eq_self v superset)) (unique (col_values col)))),
     Ok (forallb (fun v => py_in eq_self v superset) (unique (col_values col)))).
Proof.
  unfold column_at, expect_column_values_to_be_a_subset_of.
  unfold bind at 1, self. intros ->. simpl.
  unfold bind at 1, lift. unfold bind at 1. rewrite subset_loop.
  cbn [app]. rewrite (forallb_filter_length (fun v => py_in eq_self v superset)).
  destruct (filter _ (unique (col_values col))) as [|x xs]; cbn [length Nat.eqb].
  - unfold ret. by rewrite world_eta.
  - unfold bind at 1. by rewrite (print_loop (fun v => ShouldNotBe v c) (x :: xs)).
Qed.

Lemma not_in_set_run (w : World) c col (set_ : gset value) :
  column_at (frame w) c col ->
  expect_column_values_to_not_be_in_set eq_self c set_ w
  = (mkWorld (frame w)
       (stdout w ++ map (fun v => IsIn v set_)
          (filter (fun v => py_in eq_self v set_) (unique (col_values col)))),
     Ok (negb (existsb (fun v => py_in eq_self v set_) (unique (col_values col))))).
Proof.
  unfold column_at, expect_column_values_to_not_be_in_set.
  unfold bind at 1, self. intros ->. simpl.
  unfold bind at 1, lift. unfold bind at 1. rewrite not_in_set_loop.
  unfold ret. simpl. by rewrite any_map.
Qed.

(** [series_mean c]: [Series.mean()] on column [c]. *)
Variable series_mean : Column -> result float.

Lemma mean_run (w : World) c col m lo hi :
  column_at (frame w) c col -> series_mean col = Ok m ->
  expect_column_mean_to_be_between series_mean c lo hi w
  = (w, Ok (SFleb lo m && SFleb m hi)).
Proof.
  unfold column_at, expect_column_mean_to_be_between, bind, self, lift, ret.
  intros -> Hm. simpl. by rewrite Hm.
Qed.

Lemma columns_equal_run (w : World) L :
  exists msgs,
    expect_columns_to_be_equal L w
    = (mkWorld (frame w) (stdout w ++ msgs),
       Ok (bool_decide (sorted (df_columns (frame w)) = sorted L))).
Proof.
  unfold expect_columns_to_be_equal, bind at 1, self. simpl.
  case_bool_decide as Hne.
  - rewrite bool_decide_false by done.
    unfold bind, when, print, ret.
    destruct (negb _); simpl; eexists; rewrite <- ?app_assoc; reflexivity.
  - exists []. unfold ret. rewrite world_eta.
    rewrite bool_decide_true; [done|].
    by destruct (decide (sorted (df_columns (frame w)) = sorted L)).
Qed.

Lemma dict_get_keys {V} (d : dict V) k : k ∈ dict_keys d <-> is_Some (dict_get d k).
Proof.
  induction d as [|[k' v] d IH]; simpl.
  - rewrite elem_of_nil. split; [done | by intros [? ?]].
  - rewrite elem_of_cons. destruct (String.eqb_spec k k') as [->|Hne].
    + split; [by eexists | by left].
    + rewrite IH. naive_solver.
Qed.

(** [dtype_eq d t]: the truth of [d == t] for a dtype [d]. *)
Variable dtype_eq : dtype -> target -> bool.

Lemma expect_schema_unfold (expected_schema : dict target) :
  expect_schema_to_be_equal dtype_eq expected_schema
  = bind (for_ (dict_keys expected_schema) [] (schema_loop_body dtype_eq expected_schema))
      (fun columns_have_correct_dtype => ret (all columns_have_correct_dtype) : M bool).
Proof. reflexivity. Qed.

Lemma schema_body_column (expected_schema : dict target) k acc (w : World) col t :
  column_at (frame w) k col -> dict_get expected_schema k = Some t ->
  exists msgs,
    schema_loop_body dtype_eq expected_schema k acc w
    = (mkWorld (frame w) (stdout w ++ msgs), Ok (acc ++ [dtype_eq (col_dtype col) t])).
Proof.
  unfold column_at, schema_loop_body, bind, self, lift, dict_getitem, when, print, ret.
  intros -> ->. simpl.
  destruct (dtype_eq (col_dtype col) t); simpl.
  - exists []. by rewrite world_eta.
  - by eexists.
Qed.

Lemma schema_body_absent (expected_schema : dict target) k acc (w : World) :
  k ∉ df_columns (frame w) ->
  schema_loop_body dtype_eq expected_schema k acc w = (w, Raise (KeyError k)).
Proof.
  intros Hk. unfold schema_loop_body, bind, self.
  by rewrite (df_getitem_absent _ _ Hk).
Qed.

Lemma schema_loop (expected_schema : dict target) ks acc (w : World) :
  (forall k, k ∈ ks -> exists col, column_at (frame w) k col) ->
  (forall k, k ∈ ks -> k ∈ dict_keys expected_schema) ->
  exists msgs,
    for_ ks acc (schema_loop_body dtype_eq expected_schema) w
    = (mkWorld (frame w) (stdout w ++ msgs),
       Ok (acc ++ map (schema_entry_ok dtype_eq (frame w) expected_schema) ks)).
Proof.
  revert acc w. induction ks as [|k ks IH]; intros acc w Hcols Hkeys; simpl.
  - exists []. unfold ret. by rewrite world_eta, app_nil_r.
  - destruct (Hcols k) as [col Hcol]; [by left|].
    destruct (proj1 (dict_get_keys expected_schema k)) as [t Ht]; [apply Hkeys; by left|].
    destruct (schema_body_column expected_schema k acc w col t Hcol Ht) as [msgs Hstep].
    destruct (IH (acc ++ [dtype_eq (col_dtype col) t])
                (mkWorld (frame w) (stdout w ++ msgs))) as [msgs' Hrun].
    { intros k' Hk'. apply Hcols. by right. }
    { intros k' Hk'. apply Hkeys. by right. }
    exists (msgs ++ msgs'). unfold bind. rewrite Hstep, Hrun. simpl.
    unfold schema_entry_ok at 2, column_has_dtype. rewrite Ht, Hcol.
    by rewrite <- !app_assoc.
Qed.

Lemma schema_run (expected_schema : dict target) (w : World) :
  (forall k, k ∈ dict_keys expected_schema -> exists col, column_at (frame w) k col) ->
  exists msgs,
    expect_schema_to_be_equal dtype_eq expected_schema w
    = (mkWorld (frame w) (stdout w ++ msgs),
       Ok (forallb (schema_entry_ok dtype_eq (frame w) expected_schema)
             (dict_keys expected_schema))).
Proof.
  intros Hcols. rewrite expect_schema_unfold. unfold bind at 1.
  destruct (schema_loop expected_schema (dict_keys expected_schema) [] w Hcols)
    as [msgs Hrun]; [done|].
  exists msgs. rewrite Hrun. unfold ret. simpl. by rewrite all_map.
Qed.

(** With an absent key, the loop raises [KeyError] at the first one. *)
Lemma schema_loop_absent (expected_schema : dict target) ks acc (w : World) :
  (forall k, k ∈ ks -> k ∉ df_columns (frame w) \/ exists col, column_at (frame w) k col) ->
  (forall k, k ∈ ks -> k ∈ dict_keys expected_schema) ->
  (exists k, k ∈ ks /\ k ∉ df_columns (frame w)) ->
  exists msgs k,
    k ∈ ks /\ k ∉ df_columns (frame w) /\
    for_ ks acc (schema_loop_body dtype_eq expected_schema) w
    = (mkWorld (frame w) (stdout w ++ msgs), Raise (KeyError k)).
Proof.
  revert acc w. induction ks as [|k ks IH]; intros acc w Hcols Hkeys Habs.
  - destruct Habs as (k & Hk & _). by apply elem_of_nil in Hk.
  - destruct (Hcols k) as [Hk|[col Hcol]]; [by left| |].
    + exists [], k. split; [by left|]. split; [done|].
      simpl. unfold bind. rewrite (schema_body_absent _ _ _ _ Hk).
      by rewrite world_eta.
    + destruct (proj1 (dict_get_keys expected_schema k)) as [t Ht]; [apply Hkeys; by left|].
      assert (exists k', k' ∈ ks /\ k' ∉ df_columns (frame w)) as Habs'.
      { destruct Habs as (k' & Hk' & Hno). apply elem_of_cons in Hk' as [->|Hk'].
        - by apply column_at_present in Hcol.
        - by exists k'. }
      destruct (schema_body_column expected_schema k acc w col t Hcol Ht) as [msgs Hstep].
      destruct (IH (acc ++ [dtype_eq (col_dtype col) t])
                  (mkWorld (frame w) (stdout w ++ msgs)))
        as (msgs' & k' & Hk' & Hno & Hrun); [| |done|].
      { intros k' Hk'. apply Hcols. by right. }
      { intros k' Hk'. apply Hkeys. by right. }
      exists (msgs ++ msgs'), k'. split; [by right|]. split; [done|].
      simpl. unfold bind. rewrite Hstep, Hrun. simpl. by rewrite <- !app_assoc.
Qed.

(** *** [expect_dataframe_to_have_columns] *)

Lemma expect_have_columns_unfold (columns : list string) :
  expect_dataframe_to_have_columns columns
  = bind (for_ columns ([], []) have_columns_loop_body) (fun lists =>
      if Nat.eqb (length (snd lists)) 0 then
        bind (for_ (snd lists) tt (fun colname _ =>
                bind (self (fun df => df_getattr df "colnames")) (fun colnames =>
                print (NotIncluded colname colnames))))
          (fun _ => ret false : M bool)
      else ret true).
Proof. reflexivity. Qed.

Lemma existsb_eqb_false (name : string) (l : list string) :
  existsb (String.eqb name) l = false <-> name ∉ l.
Proof.
  induction l as [|x l IH]; simpl.
  - split; [intros _; apply not_elem_of_nil | done].
  - rewrite not_elem_of_cons, orb_false_iff, IH, String.eqb_neq. done.
Qed.

Lemma existsb_eqb_true (name : string) (l : list string) :
  existsb (String.eqb name) l = true <-> name ∈ l.
Proof.
  destruct (existsb (String.eqb name) l) eqn:He.
  - split; [intros _|done]. destruct (decide (name ∈ l)) as [|Hn]; [done|].
    apply existsb_eqb_false in Hn. congruence.
  - apply existsb_eqb_false in He. split; [done | by intros ?].
Qed.

Lemma have_columns_nil (w : World) :
  expect_dataframe_to_have_columns [] w = (w, Ok false).
Proof. reflexivity. Qed.

Lemma have_columns_no_attribute (w : World) c columns :
  "colnames" ∉ df_columns (frame w) ->
  expect_dataframe_to_have_columns (c :: columns) w
  = (w, Raise (AttributeError "colnames")).
Proof.
  intros Hno. rewrite expect_have_columns_unfold. cbn [for_].
  unfold have_columns_loop_body, bind, self, df_getattr.
  by rewrite (proj2 (existsb_eqb_false "colnames" _) Hno).
Qed.

Lemma have_columns_loop (w : World) o columns ins outs :
  df_getattr (frame w) "colnames" = Ok o ->
  for_ columns (ins, outs) have_columns_loop_body w
  = (w, Ok (ins ++ List.filter (pd_contains o) columns,
            outs ++ List.filter (fun c => negb (pd_contains o c)) columns)).
Proof.
  intros Ho. revert ins outs.
  induction columns as [|c columns IH]; intros ins outs; simpl.
  - unfold ret. by rewrite !app_nil_r.
  - unfold bind at 1, have_columns_loop_body at 1, bind at 1, self. rewrite Ho.
    destruct (pd_contains o c); simpl; unfold ret at 1; rewrite IH;
      by rewrite <- !app_assoc.
Qed.

Lemma filter_negb_length {A} (f : A -> bool) (l : list A) :
  Nat.eqb (length (List.filter (fun x => negb (f x)) l)) 0 = forallb f l.
Proof.
  induction l as [|x l IH]; simpl; [done|]. by destruct (f x).
Qed.

(** With a column labelled [colnames], the names are looked up in the row
    index, and the answer is [True] exactly when one of them is not there. *)
Lemma have_columns_attribute (w : World) o columns :
  df_getattr (frame w) "colnames" = Ok o ->
  expect_dataframe_to_have_columns columns w
  = (w, Ok (negb (forallb (pd_contains o) columns))).
Proof.
  intros Ho. rewrite expect_have_columns_unfold. unfold bind at 1.
  rewrite (have_columns_loop w o columns [] [] Ho). cbn [snd app].
  rewrite filter_negb_length.
  destruct (forallb (pd_contains o) columns) eqn:Hall; [|done].
  rewrite <- filter_negb_length in Hall.
  destruct (List.filter _ columns); [done | discriminate].
Qed.

(** *** From booleans to propositions *)

Lemma forallb_elem_of {A} (f : A -> bool) (l : list A) :
  forallb f l = true <-> forall x, x ∈ l -> f x = true.
Proof.
  rewrite forallb_forall. split; intros Hall x Hx; apply Hall; by apply list_elem_of_In.
Qed.

Lemma existsb_elem_of {A} (f : A -> bool) (l : list A) :
  existsb f l = true <-> exists x, x ∈ l /\ f x = true.
Proof.
  rewrite existsb_exists. split; intros (x & Hx & Hf); exists x;
    (split; [by apply list_elem_of_In | done]).
Qed.

Lemma py_in_true v (set_ : gset value) :
  py_in eq_self v set_ = true <-> v ∈ set_ /\ eq_self v = true.
Proof. unfold py_in. by rewrite andb_true_iff, bool_decide_eq_true. Qed.

Lemma py_in_elem_of v (set_ : gset value) :
  eq_self v = true -> py_in eq_self v set_ = bool_decide (v ∈ set_).
Proof. intros Hv. unfold py_in. rewrite Hv. apply andb_true_r. Qed.

Lemma forallb_py_in (set_ : gset value) (col : Column) :
  forallb (fun v => py_in eq_self v set_) (unique (col_values col)) = true
  <-> forall v, v ∈ col_values col -> v ∈ set_ /\ eq_self v = true.
Proof.
  rewrite forallb_elem_of. split; intros Hall v Hv.
  - rewrite <- elem_of_unique in Hv. by apply py_in_true, Hall.
  - rewrite elem_of_unique in Hv. by apply py_in_true, Hall.
Qed.

Lemma existsb_py_in (set_ : gset value) (col : Column) :
  existsb (fun v => py_in eq_self v set_) (unique (col_values col)) = true
  <-> exists v, v ∈ col_values col /\ v ∈ set_ /\ eq_self v = true.
Proof.
  rewrite existsb_elem_of. split; intros (v & Hv & Hin); exists v.
  - rewrite elem_of_unique in Hv. by apply py_in_true in Hin.
  - split; [by rewrite elem_of_unique | by apply py_in_true].
Qed.

(** On a column all of whose values equal themselves, the tests are the
    inclusion and the disjointness of sets. *)
Lemma forallb_in_set (set_ : gset value) (col : Column) :
  (forall v, v ∈ col_values col -> eq_self v = true) ->
  forallb (fun v => py_in eq_self v set_) (unique (col_values col)) = true
  <-> distinct_values col ⊆ set_.
Proof.
  intros Hself. rewrite forallb_py_in. unfold distinct_values. split.
  - intros Hall v Hv. rewrite elem_of_list_to_set in Hv. by apply Hall.
  - intros Hsub v Hv. split; [|by apply Hself].
    apply Hsub. by rewrite elem_of_list_to_set.
Qed.

Lemma existsb_in_set (set_ : gset value) (col : Column) :
  (forall v, v ∈ col_values col -> eq_self v = true) ->
  existsb (fun v => py_in eq_self v set_) (unique (col_values col)) = false
  <-> distinct_values col ∩ set_ = ∅.
Proof.
  intros Hself. unfold distinct_values. split.
  - intros Hnone. apply set_eq. intros v.
    rewrite elem_of_intersection, elem_of_list_to_set. split; [|set_solver].
    intros [Hv Hin]. exfalso.
    assert (existsb (fun v => py_in eq_self v set_) (unique (col_values col)) = true);
      [|congruence].
    apply existsb_py_in. exists v. split; [done|]. split; [done | by apply Hself].
  - intros Hempty. apply not_true_is_false. intros Hex.
    apply existsb_py_in in Hex as (v & Hv & Hin & _).
    assert (v ∈ (list_to_set (col_values col) ∩ set_ : gset value)) as Habs.
    { apply elem_of_intersection. split; [|done]. by rewrite elem_of_list_to_set. }
    rewrite Hempty in Habs. by apply not_elem_of_empty in Habs.
Qed.

(** ** The properties of the checks *)

(** C2.  On a column [c] of the frame that has a mean [m],
    [expect_column_mean_to_be_between c lo hi] returns [True] exactly when
    [lo <= m <= hi].  Both bounds are inclusive: within a range [lo <= hi] a
    mean equal to [lo] or to [hi] gives [True]; a mean strictly below [lo]
    or strictly above [hi] gives [False]. *)
Theorem mean_between_inclusive (w : World) c col m lo hi :
  column_at (frame w) c col ->
  series_mean col = Ok m ->
  exists b,
    result_of (expect_column_mean_to_be_between series_mean c lo hi) w = Ok b /\
    (b = true <-> SFleb lo m = true /\ SFleb m hi = true) /\
    (SFleb lo hi = true -> SFeqb m lo = true -> b = true) /\
    (SFleb lo hi = true -> SFeqb m hi = true -> b = true) /\
    (SFltb m lo = true -> b = false) /\
    (SFltb hi m = true -> b = false).
Proof.
  intros Hcol Hm. exists (SFleb lo m && SFleb m hi).
  unfold result_of. rewrite (mean_run w c col m lo hi Hcol Hm).
  split; [done|]. split; [apply andb_true_iff|].
  repeat split.
  - intros Hrange Heq. apply andb_true_iff. split.
    + by apply SFeqb_leb, SFeqb_sym.
    + by rewrite (SFleb_eqb_l m lo hi Heq).
  - intros Hrange Heq. apply andb_true_iff. split.
    + by rewrite (SFleb_eqb_r m hi lo Heq).
    + by apply SFeqb_leb.
  - intros Hlt. by rewrite (SFltb_not_leb m lo Hlt).
  - intros Hlt. rewrite (SFltb_not_leb hi m Hlt). apply andb_false_r.
Qed.

(** C3.  On a column [c] of the frame,
    [expect_column_values_to_be_in_set c S] returns [True] exactly when every
    value of the column is found in [S] by Python's [in]: it belongs to [S]
    and equals itself, which NaN does not.  On a column all of whose values
    equal themselves, that is exactly when the set of distinct values of the
    column is a subset of [S].
    [expect_column_values_to_be_a_subset_of c S] returns the same boolean. *)
Theorem in_set_iff_all_found (w : World) c col (S : gset value) :
  column_at (frame w) c col ->
  exists b,
    result_of (expect_column_values_to_be_in_set eq_self c S) w = Ok b /\
    (b = true <-> forall v, v ∈ col_values col -> v ∈ S /\ eq_self v = true) /\
    ((forall v, v ∈ col_values col -> eq_self v = true) ->
     (b = true <-> distinct_values col ⊆ S)) /\
    result_of (expect_column_values_to_be_a_subset_of eq_self c S) w = Ok b.
Proof.
  intros Hcol. eexists. unfold result_of.
  rewrite (in_set_run w c col S Hcol), (subset_run w c col S Hcol).
  split; [done|]. split; [apply forallb_py_in|].
  split; [apply forallb_in_set | done].
Qed.

(** C7.  On a column [c] of the frame,
    [expect_column_values_to_not_be_in_set c S] returns [True] exactly when
    no value of the column is found in [S] by Python's [in], that is, when
    none both belongs to [S] and equals itself.  On a column all of whose
    values equal themselves, that is exactly when no distinct value of the
    column is in [S]. *)
Theorem not_in_set_iff_none_found (w : World) c col (S : gset value) :
  column_at (frame w) c col ->
  exists b,
    result_of (expect_column_values_to_not_be_in_set eq_self c S) w = Ok b /\
    (b = true <-> forall v, v ∈ col_values col -> ~ (v ∈ S /\ eq_self v = true)) /\
    ((forall v, v ∈ col_values col -> eq_self v = true) ->
     (b = true <-> distinct_values col ∩ S = ∅)).
Proof.
  intros Hcol. eexists. unfold result_of.
  rewrite (not_in_set_run w c col S Hcol). split; [done|].
  rewrite negb_true_iff. split; [|apply existsb_in_set].
  split.
  - intros Hnone v Hv Hfound.
    assert (existsb (fun v => py_in eq_self v S) (unique (col_values col)) = true);
      [|congruence].
    apply existsb_py_in. by exists v.
  - intros Hnone. apply not_true_is_false. intros Hex.
    apply existsb_py_in in Hex as (v & Hv & Hfound). by apply (Hnone v Hv).
Qed.

(** C8.  On a column [c] of the frame,
    [expect_column_values_to_not_be_null c] returns [True] exactly when no
    value of the column is null; on a frame whose column [c] is that column
    with one null value inserted at any position, it returns [False]. *)
Theorem not_null_iff_no_null (w : World) c col :
  column_at (frame w) c col ->
  exists b,
    result_of (expect_column_values_to_not_be_null isnull c) w = Ok b /\
    (b = true <-> forall v, v ∈ col_values col -> isnull v = false) /\
    (forall (w' : World) i v,
       isnull v = true ->
       column_at (frame w') c (insert_value i v col) ->
       result_of (expect_column_values_to_not_be_null isnull c) w' = Ok false).
Proof.
  intros Hcol. eexists. unfold result_of.
  rewrite (not_null_run w c col Hcol). split; [done|]. split.
  - rewrite forallb_elem_of. split; intros Hall v Hv.
    + by apply negb_true_iff, Hall.
    + by apply negb_true_iff, Hall.
  - intros w' i v Hnull Hcol'.
    rewrite (not_null_run w' c _ Hcol'). simpl. f_equal.
    apply not_true_is_false. rewrite forallb_elem_of. intros Hall.
    specialize (Hall v). rewrite Hnull in Hall. simpl in Hall.
    assert (false = true); [|done]. apply Hall.
    apply elem_of_app. right. by left.
Qed.

(** *** Column names *)

Lemma columns_equal_result (w : World) L :
  result_of (expect_columns_to_be_equal L) w
  = Ok (bool_decide (df_columns (frame w) ≡ₚ L)).
Proof.
  destruct (columns_equal_run w L) as [msgs Hrun].
  unfold result_of. rewrite Hrun. simpl. f_equal.
  apply bool_decide_ext, sorted_eq_iff.
Qed.

Lemma name_set_eq (l k : list string) :
  name_set l = name_set k <-> forall c, c ∈ l <-> c ∈ k.
Proof.
  unfold name_set. rewrite set_eq.
  split; intros Heq c; specialize (Heq c); by rewrite !elem_of_list_to_set in *.
Qed.

Lemma Permutation_multiplicity (l k : list string) c :
  l ≡ₚ k -> multiplicity c l = multiplicity c k.
Proof. intros Hp. by apply Permutation_count_occ. Qed.

(** C4.  [expect_columns_to_be_equal L] returns [True] exactly when the
    frame's column names are a rearrangement of [L]: the same names, each as
    often.  When neither list repeats a name, that is exactly when the set of
    the frame's column names equals the set of names in [L].  It returns
    [False] when the frame has a column not named in [L] and when it misses
    a name of [L]. *)
Theorem columns_equal_iff_rearrangement (w : World) L :
  exists b,
    result_of (expect_columns_to_be_equal L) w = Ok b /\
    (b = true <-> df_columns (frame w) ≡ₚ L) /\
    (NoDup (df_columns (frame w)) -> NoDup L ->
       (b = true <-> name_set (df_columns (frame w)) = name_set L)) /\
    ((exists c, c ∈ df_columns (frame w) /\ c ∉ L) -> b = false) /\
    ((exists c, c ∈ L /\ c ∉ df_columns (frame w)) -> b = false).
Proof.
  eexists. split; [apply columns_equal_result|].
  split; [apply bool_decide_eq_true|]. split; [|split].
  - intros Hnd HndL. rewrite bool_decide_eq_true, name_set_eq. split.
    + intros Hp c. by rewrite Hp.
    + by apply NoDup_Permutation.
  - intros (c & Hc & HcL). apply bool_decide_eq_false. intros Hp.
    by rewrite Hp in Hc.
  - intros (c & HcL & Hc). apply bool_decide_eq_false. intros Hp.
    by rewrite <- Hp in HcL.
Qed.

(** C5.  When the frame's distinct column names are exactly the distinct
    names of [L] and some name occurs more often in [L] than among the
    frame's column names, [expect_columns_to_be_equal L] returns [False];
    this is so in particular when the frame's column names are pairwise
    distinct and [L] holds some name more than once. *)
Theorem columns_equal_false_on_repeats (w : World) L :
  name_set (df_columns (frame w)) = name_set L ->
  ((exists c, multiplicity c (df_columns (frame w)) < multiplicity c L) ->
     result_of (expect_columns_to_be_equal L) w = Ok false) /\
  (NoDup (df_columns (frame w)) -> (exists c, 1 < multiplicity c L) ->
     result_of (expect_columns_to_be_equal L) w = Ok false).
Proof.
  intros Hset.
  assert ((exists c, multiplicity c (df_columns (frame w)) < multiplicity c L) ->
          result_of (expect_columns_to_be_equal L) w = Ok false) as Hmore.
  { intros (c & Hlt). rewrite columns_equal_result. f_equal.
    apply bool_decide_eq_false. intros Hp.
    apply (Permutation_multiplicity _ _ c) in Hp. lia. }
  split; [done|].
  intros Hnd (c & Hc). apply Hmore. exists c.
  apply NoDup_ListNoDup in Hnd.
  pose proof (proj1 (NoDup_count_occ String.string_dec _) Hnd c) as Hone.
  unfold multiplicity in *. lia.
Qed.

(** *** Schema *)

Lemma schema_entry_ok_true (df : DataFrame) (S : dict target) k :
  schema_entry_ok dtype_eq df S k = true <->
  exists t col, dict_get S k = Some t /\ df_getitem df k = Ok (PSeries (index df) col)
                /\ dtype_eq (col_dtype col) t = true.
Proof.
  unfold schema_entry_ok, column_has_dtype, df_getitem. split.
  - destruct (dict_get S k) as [t|]; [|done].
    destruct (List.filter _ (data df)) as [|[k' col] [|p l]]; try done.
    intros Heq. by exists t, col.
  - intros (t & col & -> & Hget & Heq).
    destruct (List.filter _ (data df)) as [|[k' col'] [|p l]]; try done.
    by injection Hget as ->.
Qed.

Lemma forallb_ext_elem_of {A} (f g : A -> bool) (l : list A) :
  (forall x, x ∈ l -> f x = g x) -> forallb f l = forallb g l.
Proof.
  induction l as [|x l IH]; intros Hfg; simpl; [done|].
  rewrite (Hfg x) by (by left). rewrite IH; [done|].
  intros y Hy. apply Hfg. by right.
Qed.

(** C6.  For a schema [S] whose keys all label columns of the frame,
    [expect_schema_to_be_equal S] returns [True] exactly when, for every
    entry [(k, t)] of [S], the dtype of column [k] equals [t].  The result is
    the conjunction of the checks of the entries, and it is the same on every
    frame that has the same columns under the keys of [S], whatever its
    other columns are. *)
Theorem schema_equal_iff_all_dtypes (w : World) (S : dict target) :
  (forall k, k ∈ dict_keys S -> exists col, column_at (frame w) k col) ->
  exists b,
    result_of (expect_schema_to_be_equal dtype_eq S) w = Ok b /\
    (b = true <->
       forall k t, dict_get S k = Some t ->
         exists col, column_at (frame w) k col /\ dtype_eq (col_dtype col) t = true) /\
    b = forallb (schema_entry_ok dtype_eq (frame w) S) (dict_keys S) /\
    (forall w' : World,
       (forall k col, k ∈ dict_keys S ->
          column_at (frame w) k col -> column_at (frame w') k col) ->
       result_of (expect_schema_to_be_equal dtype_eq S) w' = Ok b).
Proof.
  intros Hcols. eexists. unfold result_of.
  destruct (schema_run S w Hcols) as [msgs Hrun]. rewrite Hrun.
  split; [done|]. split; [|split; [done|]].
  - rewrite forallb_elem_of. split.
    + intros Hall k t Ht.
      assert (k ∈ dict_keys S) as Hk by (apply dict_get_keys; by eexists).
      apply Hall, schema_entry_ok_true in Hk as (t' & col & Ht' & Hget & Heq).
      exists col. split; [done|]. congruence.
    + intros Hall k Hk. apply dict_get_keys in Hk as [t Ht].
      destruct (Hall k t Ht) as (col & Hcol & Heq).
      apply schema_entry_ok_true. by exists t, col.
  - intros w' Hsame.
    assert (forall k, k ∈ dict_keys S -> exists col, column_at (frame w') k col) as Hcols'.
    { intros k Hk. destruct (Hcols k Hk) as [col Hcol]. exists col. by apply Hsame. }
    destruct (schema_run S w' Hcols') as [msgs' Hrun']. rewrite Hrun'. simpl.
    f_equal. apply forallb_ext_elem_of. intros k Hk.
    destruct (Hcols k Hk) as [col Hcol]. pose proof (Hsame k col Hk Hcol) as Hcol'.
    unfold schema_entry_ok, column_has_dtype. unfold column_at in *.
    by rewrite Hcol, Hcol'.
Qed.

(** *** Errors *)

Lemma not_found_fails (S : gset value) (col : Column) :
  (exists v, v ∈ col_values col /\ py_in eq_self v S = false) ->
  forallb (fun v => py_in eq_self v S) (unique (col_values col)) = false.
Proof.
  intros (v & Hv & Hno). apply not_true_is_false. rewrite forallb_py_in.
  intros Hall. apply Hall, py_in_true in Hv. congruence.
Qed.

Lemma not_subset_fails (S : gset value) (col : Column) :
  ~ distinct_values col ⊆ S ->
  forallb (fun v => py_in eq_self v S) (unique (col_values col)) = false.
Proof.
  intros Hno. apply not_true_is_false. rewrite forallb_py_in. intros Hall.
  apply Hno. intros v Hv. unfold distinct_values in Hv.
  rewrite elem_of_list_to_set in Hv. by apply Hall.
Qed.

Lemma getitem_raises {A} c (k : pdobj -> M A) (w : World) :
  c ∉ df_columns (frame w) ->
  bind (self (fun df => df_getitem df c)) k w = (w, Raise (KeyError c)).
Proof. intros Hc. unfold bind, self. by rewrite (df_getitem_absent _ _ Hc). Qed.

(** C9.  Called with a column name that labels no column of the frame,
    each of the checks on a column raises [KeyError]; the schema check does
    so for the first key of the schema that labels no column.  On a column
    of the frame, an expectation that is not met is returned as [False]:
    a null value, a value that [in] does not find in the permitted set or
    does find in the forbidden one, a mean outside the bounds, a dtype other
    than the expected one. *)
Theorem absent_column_raises_unmet_returns_false (w : World) c :
  (c ∉ df_columns (frame w) ->
     result_of (expect_column_values_to_not_be_null isnull c) w = Raise (KeyError c) /\
     (forall S, result_of (expect_column_values_to_be_in_set eq_self c S) w
                = Raise (KeyError c)) /\
     (forall S, result_of (expect_column_values_to_be_a_subset_of eq_self c S) w
                = Raise (KeyError c)) /\
     (forall S, result_of (expect_column_values_to_not_be_in_set eq_self c S) w
                = Raise (KeyError c)) /\
     (forall lo hi, result_of (expect_column_mean_to_be_between series_mean c lo hi) w
                    = Raise (KeyError c)) /\
     (forall S : dict target,
        c ∈ dict_keys S ->
        (forall k, k ∈ dict_keys S ->
           k ∉ df_columns (frame w) \/ exists col, column_at (frame w) k col) ->
        exists k, k ∈ dict_keys S /\ k ∉ df_columns (frame w) /\
          result_of (expect_schema_to_be_equal dtype_eq S) w = Raise (KeyError k))) /\
  (forall col, column_at (frame w) c col ->
     ((exists v, v ∈ col_values col /\ isnull v = true) ->
        result_of (expect_column_values_to_not_be_null isnull c) w = Ok false) /\
     (forall S, (exists v, v ∈ col_values col /\ py_in eq_self v S = false) ->
        result_of (expect_column_values_to_be_in_set eq_self c S) w = Ok false /\
        result_of (expect_column_values_to_be_a_subset_of eq_self c S) w = Ok false) /\
     (forall S, ~ distinct_values col ⊆ S ->
        result_of (expect_column_values_to_be_in_set eq_self c S) w = Ok false /\
        result_of (expect_column_values_to_be_a_subset_of eq_self c S) w = Ok false) /\
     (forall S, (exists v, v ∈ col_values col /\ py_in eq_self v S = true) ->
        result_of (expect_column_values_to_not_be_in_set eq_self c S) w = Ok false) /\
     (forall lo hi m, series_mean col = Ok m ->
        ~ (SFleb lo m = true /\ SFleb m hi = true) ->
        result_of (expect_column_mean_to_be_between series_mean c lo hi) w = Ok false) /\
     (forall (S : dict target) t,
        dict_get S c = Some t ->
        (forall k, k ∈ dict_keys S -> exists col', column_at (frame w) k col') ->
        dtype_eq (col_dtype col) t = false ->
        result_of (expect_schema_to_be_equal dtype_eq S) w = Ok false)).
Proof.
  split.
  - intros Hc. unfold result_of.
    unfold expect_column_values_to_not_be_null, expect_column_values_to_be_in_set,
      expect_column_values_to_be_a_subset_of, expect_column_values_to_not_be_in_set,
      expect_column_mean_to_be_between.
    repeat split; intros; rewrite ?getitem_raises by done; try done.
    destruct (schema_loop_absent S (dict_keys S) [] w) as (msgs & k & Hk & Hno & Hrun);
      [done | done | by exists c |].
    exists k. split; [done|]. split; [done|].
    rewrite expect_schema_unfold. unfold bind. by rewrite Hrun.
  - intros col Hcol. unfold result_of. repeat split.
    + intros (v & Hv & Hnull). rewrite (not_null_run w c col Hcol). simpl. f_equal.
      apply not_true_is_false. rewrite forallb_elem_of. intros Hall.
      specialize (Hall v Hv). by rewrite Hnull in Hall.
    + rewrite (in_set_run w c col S Hcol). simpl. f_equal.
      by apply (not_found_fails S col).
    + rewrite (subset_run w c col S Hcol). simpl. f_equal.
      by apply (not_found_fails S col).
    + rewrite (in_set_run w c col S Hcol). simpl. f_equal.
      by apply (not_subset_fails S col).
    + rewrite (subset_run w c col S Hcol). simpl. f_equal.
      by apply (not_subset_fails S col).
    + intros S (v & Hv & Hfound). rewrite (not_in_set_run w c col S Hcol). simpl.
      f_equal. apply negb_false_iff, existsb_py_in.
      exists v. split; [done|]. by apply py_in_true.
    + intros lo hi m Hm Hout. rewrite (mean_run w c col m lo hi Hcol Hm). simpl.
      f_equal. apply not_true_is_false. by rewrite andb_true_iff.
    + intros S t Ht Hcols Hne.
      destruct (schema_run S w Hcols) as [msgs Hrun]. rewrite Hrun. simpl. f_equal.
      apply not_true_is_false. rewrite forallb_elem_of. intros Hall.
      assert (c ∈ dict_keys S) as Hk by (apply dict_get_keys; by eexists).
      apply Hall, schema_entry_ok_true in Hk as (t' & col' & Ht' & Hget & Heq).
      unfold column_at in Hcol. congruence.
Qed.

(** *** The frame is only read *)

Lemma reads_only_run_check (c : check) :
  reads_only (run_check isnull dtype_eq series_mean eq_self c : M bool).
Proof.
  destruct c; simpl;
    unfold expect_dataframe_to_have_columns, expect_columns_to_be_equal,
      expect_schema_to_be_equal, expect_column_values_to_not_be_null,
      expect_column_values_to_be_in_set, expect_column_values_to_be_a_subset_of,
      expect_column_values_to_not_be_in_set, expect_column_mean_to_be_between;
    repeat reads_only_step.
Qed.

(** C10.  Running any check with any arguments leaves the frame as it was;
    the output is what it was followed by the diagnostics of the call; and
    what the call returns and writes depends on the frame only, not on what
    was written before. *)
Theorem checks_leave_frame_unchanged (c : check) (w : World) :
  frame (fst (run_check isnull dtype_eq series_mean eq_self c w)) = frame w /\
  (exists msgs,
     stdout (fst (run_check isnull dtype_eq series_mean eq_self c w)) = stdout w ++ msgs) /\
  (forall w' : World, frame w' = frame w ->
     result_of (run_check isnull dtype_eq series_mean eq_self c) w'
     = result_of (run_check isnull dtype_eq series_mean eq_self c) w /\
     written_by (run_check isnull dtype_eq series_mean eq_self c) w'
     = written_by (run_check isnull dtype_eq series_mean eq_self c) w).
Proof.
  destruct (reads_only_run_check c (frame w)) as (msgs & r & Hrun).
  pose proof (Hrun (stdout w)) as Hw.
  assert (mkWorld (frame w) (stdout w) = w) as Heta by (by destruct w).
  rewrite Heta in Hw.
  split; [by rewrite Hw|]. split; [exists msgs; by rewrite Hw|].
  intros w' Hframe. pose proof (Hrun (stdout w')) as Hw'.
  assert (mkWorld (frame w) (stdout w') = w') as Heta'
    by (destruct w'; simpl in *; by subst).
  rewrite Heta' in Hw'.
  unfold result_of, written_by. rewrite Hw, Hw'. simpl.
  split; [done|]. by rewrite !drop_app_length.
Qed.

End Facts.

(** ** The checks on concrete frames *)

(** C1.  On the frame with columns [A] and [B],
    [expect_dataframe_to_have_columns] does not return [True] for the
    columns the frame has: it looks the names up in [self.colnames], which the
    frame does not have, and raises [AttributeError] for every list with a
    name in it; for the empty list it returns [False].  On a frame that does
    have a column labelled [colnames], the names are looked up in the row
    index, and the answer is [False] when all are found and [True] when one is
    missing. *)
Theorem have_columns_on_concrete_frames :
  result_of (expect_dataframe_to_have_columns ["A"; "B"]) (fresh df_AB)
  = Raise (AttributeError "colnames") /\
  result_of (expect_dataframe_to_have_columns ["A"; "C"]) (fresh df_AB)
  = Raise (AttributeError "colnames") /\
  result_of (expect_dataframe_to_have_columns []) (fresh df_AB) = Ok false /\
  written_by (expect_dataframe_to_have_columns ["A"; "C"]) (fresh df_AB) = [] /\
  result_of (expect_dataframe_to_have_columns ["A"; "B"]) (fresh df_colnames)
  = Ok false /\
  result_of (expect_dataframe_to_have_columns ["A"; "colnames"]) (fresh df_colnames)
  = Ok true /\
  written_by (expect_dataframe_to_have_columns ["A"; "colnames"]) (fresh df_colnames)
  = [].
Proof. repeat split; reflexivity. Qed.

(** The other calls of the scenario on the frame with columns [A] and [B]:
    the columns in another order, and the mean of [A] against two ranges. *)
Example scenario_on_df_AB :
  result_of (expect_columns_to_be_equal ["B"; "A"]) (fresh df_AB) = Ok true /\
  result_of
    (expect_column_mean_to_be_between cell_mean "A" (float_of_Z 1) (float_of_Z 3))
    (fresh df_AB) = Ok true /\
  result_of
    (expect_column_mean_to_be_between cell_mean "A" (float_of_Z 5) (float_of_Z 10))
    (fresh df_AB) = Ok false.
Proof. repeat split; reflexivity. Qed.

(** *** Instances of the theorems *)

(** The mean of [A] is 2: with the lower bound 2 the check returns [True]. *)
Lemma mean_between_inclusive_witness :
  result_of
    (expect_column_mean_to_be_between cell_mean "A" (float_of_Z 2) (float_of_Z 3))
    (fresh df_AB)
  = Ok true.
Proof.
  destruct (mean_between_inclusive cell_mean (fresh df_AB) "A"
              (int_column [1; 2; 3]%Z) (float_of_Z 2) (float_of_Z 2) (float_of_Z 3)
              eq_refl eq_refl)
    as (b & Hres & _ & Hlo & _).
  rewrite Hres. f_equal. apply Hlo; reflexivity.
Defined.

(** The values of [A] are 1, 2 and 3, all in the set and equal to
    themselves. *)
Lemma in_set_iff_all_found_witness :
  result_of
    (expect_column_values_to_be_a_subset_of cell_eq_self "A"
       {[Some 1%Z; Some 2%Z; Some 3%Z]})
    (fresh df_AB)
  = Ok true.
Proof.
  destruct (in_set_iff_all_found cell_eq_self (fresh df_AB) "A"
              (int_column [1; 2; 3]%Z) {[Some 1%Z; Some 2%Z; Some 3%Z]} eq_refl)
    as (b & Hin & _ & _ & Hsub).
  rewrite Hsub. rewrite <- Hin. reflexivity.
Defined.

(** The columns [A], [B] against the list [B, A]. *)
Lemma columns_equal_iff_rearrangement_witness :
  result_of (expect_columns_to_be_equal ["B"; "A"]) (fresh df_AB) = Ok true.
Proof.
  destruct (columns_equal_iff_rearrangement (fresh df_AB) ["B"; "A"])
    as (b & Hres & _ & Hset & _).
  rewrite Hres. f_equal. apply Hset.
  - by apply (bool_decide_unpack _).
  - by apply (bool_decide_unpack _).
  - reflexivity.
Defined.

(** The single column [A] against the list [A, A]. *)
Lemma columns_equal_false_on_repeats_witness :
  result_of (expect_columns_to_be_equal ["A"; "A"]) (fresh df_A) = Ok false.
Proof.
  destruct (columns_equal_false_on_repeats (fresh df_A) ["A"; "A"] eq_refl)
    as [Hmore _].
  apply Hmore. exists "A". vm_compute. lia.
Defined.

(** Both columns of the frame hold 64-bit integers. *)
Lemma schema_equal_iff_all_dtypes_witness :
  result_of
    (expect_schema_to_be_equal String.eqb [("A", "int64"); ("B", "int64")])
    (fresh df_AB)
  = Ok true.
Proof.
  destruct (schema_equal_iff_all_dtypes String.eqb (fresh df_AB)
              [("A", "int64"); ("B", "int64")])
    as (b & Hres & _ & Hand & _).
  - intros k Hk. apply elem_of_cons in Hk as [->|Hk]; [by eexists|].
    apply list_elem_of_singleton in Hk as ->. by eexists.
  - rewrite Hres, Hand. reflexivity.
Defined.

(** No value of [A] is 7. *)
Lemma not_in_set_iff_none_found_witness :
  distinct_values (int_column [1; 2; 3]%Z) ∩ {[Some 7%Z]} = ∅.
Proof.
  destruct (not_in_set_iff_none_found cell_eq_self (fresh df_AB) "A"
              (int_column [1; 2; 3]%Z) {[Some 7%Z]} eq_refl)
    as (b & Hres & _ & Hiff).
  apply Hiff.
  - intros v Hv. repeat (apply elem_of_cons in Hv as [->|Hv]; [done|]).
    by apply elem_of_nil in Hv.
  - vm_compute in Hres. by injection Hres.
Defined.

(** The column [1] with a missing value put after its first value. *)
Lemma not_null_iff_no_null_witness :
  result_of (expect_column_values_to_not_be_null cell_isnull "A")
    (fresh (mkDataFrame [LInt 0; LInt 1]
              [("A", insert_value 1 None (int_column [1]%Z))]))
  = Ok false.
Proof.
  destruct (not_null_iff_no_null cell_isnull
              (fresh (mkDataFrame [LInt 0] [("A", int_column [1]%Z)])) "A"
              (int_column [1]%Z) eq_refl)
    as (b & _ & _ & Hins).
  apply (Hins _ 1 None); reflexivity.
Defined.

(** No column is labelled [Z]; the value 2 of [A] is not in the set. *)
Lemma absent_column_raises_unmet_returns_false_witness :
  result_of (expect_column_values_to_not_be_null cell_isnull "Z") (fresh df_AB)
  = Raise (KeyError "Z") /\
  result_of (expect_column_values_to_be_in_set cell_eq_self "A" {[Some 1%Z]})
    (fresh df_AB)
  = Ok false.
Proof.
  destruct (absent_column_raises_unmet_returns_false cell_eq_self cell_isnull
              cell_mean String.eqb (fresh df_AB) "Z") as [Habsent _].
  destruct (absent_column_raises_unmet_returns_false cell_eq_self cell_isnull
              cell_mean String.eqb (fresh df_AB) "A") as [_ Hunmet].
  split.
  - apply Habsent. by apply (bool_decide_unpack _).
  - destruct (Hunmet (int_column [1; 2; 3]%Z) eq_refl) as (_ & Hin & _).
    apply Hin. exists (Some 2%Z). split; [|reflexivity].
    apply elem_of_cons. right. by left.
Defined.

(** The same call after something was written and before. *)
Lemma checks_leave_frame_unchanged_witness :
  result_of (run_check cell_isnull String.eqb cell_mean cell_eq_self (NotNull "A"))
    (mkWorld df_AB [ColumnCount 1 2])
  = result_of (run_check cell_isnull String.eqb cell_mean cell_eq_self (NotNull "A"))
      (fresh df_AB).
Proof.
  destruct (checks_leave_frame_unchanged cell_eq_self cell_isnull cell_mean String.eqb
              (NotNull "A") (fresh df_AB)) as (_ & _ & Hsame).
  apply Hsame. reflexivity.
Defined.

(** *** Where the properties as stated fail *)

(** C4 fails as stated: the frame with the single column [A] has the same
    set of names as the list [A, A], and the check returns [False]. *)
Lemma columns_equal_same_set_returns_false :
  name_set (df_columns df_A) = name_set ["A"; "A"] /\
  result_of (expect_columns_to_be_equal ["A"; "A"]) (fresh df_A) = Ok false.
Proof. split; reflexivity. Qed.

(** C5 fails as stated: on the frame with two columns labelled [A] and the
    list [A, A], which holds [A] twice, the check returns [True]. *)
Lemma columns_equal_repeats_returns_true :
  name_set (df_columns df_AA) = name_set ["A"; "A"] /\
  multiplicity "A" ["A"; "A"] = 2 /\
  result_of (expect_columns_to_be_equal ["A"; "A"]) (fresh df_AA) = Ok true.
Proof. repeat split; reflexivity. Qed.

(** C3 fails as stated: the distinct values of the column [1, NaN] are all
    in the set that holds 1 and NaN, and the check returns [False], because
    the NaN read from the column is not found in the set. *)
Lemma in_set_subset_with_nan_returns_false :
  distinct_values (mkColumn "float64" [Some 1%Z; None])
    ⊆ ({[Some 1%Z; None]} : gset cell) /\
  result_of (expect_column_values_to_be_in_set cell_eq_self "A" {[Some 1%Z; None]})
    (fresh df_nan)
  = Ok false.
Proof. split; [|reflexivity]. unfold distinct_values. simpl. set_solver. Qed.

(** C7 fails as stated: the column [1, NaN] has the distinct value NaN in
    common with the set that holds NaN, and the check returns [True]. *)
Lemma not_in_set_meeting_nan_returns_true :
  None ∈ distinct_values (mkColumn "float64" [Some 1%Z; None])
         ∩ ({[None]} : gset cell) /\
  result_of (expect_column_values_to_not_be_in_set cell_eq_self "A" {[None]})
    (fresh df_nan)
  = Ok true.
Proof. split; [|reflexivity]. unfold distinct_values. simpl. set_solver. Qed.

(** ** Further properties of the checks *)

(** *** More on comparing floats *)

Lemma SFleb_trans x y z :
  SFleb x y = true -> SFleb y z = true -> SFleb x z = true.
Proof.
  unfold SFleb.
  destruct x as [sx|sx| |sx mx ex], y as [sy|sy| |sy my ey], z as [sz|sz| |sz mz ez];
    simpl; try discriminate; try reflexivity;
    try (destruct sx; simpl; try discriminate; try reflexivity);
    try (destruct sy; simpl; try discriminate; try reflexivity);
    try (destruct sz; simpl; try discriminate; try reflexivity);
    change (Pos.compare_cont Eq) with Pos.compare;
    destruct (Z.compare_spec ex ey), (Z.compare_spec ey ez), (Z.compare_spec ex ez);
    simpl; try discriminate; try reflexivity; try lia; subst;
    destruct (Pos.compare_spec mx my), (Pos.compare_spec my mz), (Pos.compare_spec mx mz);
    simpl; try discriminate; try reflexivity; try lia.
Qed.

Lemma SFleb_nan_r x : SFleb x S754_nan = false.
Proof. by destruct x. Qed.

Lemma SFleb_nan_l x : SFleb S754_nan x = false.
Proof. done. Qed.

Section MoreFacts.

Set Default Proof Using "Type".

Context {value : Type} `{Countable value} {dtype target : Type}.

Local Abbreviation World := (@World value _ _ dtype target).
Local Abbreviation M := (@M value _ _ dtype target).
Local Abbreviation DataFrame := (@DataFrame value dtype).
Local Abbreviation Column := (@Column value dtype).

(** *** [expect_dataframe_to_have_columns] as it runs *)

Lemma have_columns_raise (w : World) e c columns :
  df_getattr (frame w) "colnames" = Raise e ->
  expect_dataframe_to_have_columns (c :: columns) w = (w, Raise e).
Proof.
  intros He. rewrite expect_have_columns_unfold. cbn [for_].
  unfold have_columns_loop_body, bind, self. by rewrite He.
Qed.

Lemma df_getattr_no_column (df : DataFrame) name :
  name ∉ df_columns df -> df_getattr df name = Raise (AttributeError name).
Proof.
  intros Hno. unfold df_getattr.
  by rewrite (proj2 (existsb_eqb_false name _) Hno).
Qed.

Lemma df_getattr_column (df : DataFrame) name col :
  column_at df name col -> df_getattr df name = Ok (PSeries (index df) col).
Proof.
  intros Hcol. unfold df_getattr.
  by rewrite (proj2 (existsb_eqb_true name _) (column_at_present _ _ _ Hcol)).
Qed.

Lemma existsb_label (idx : list label) c :
  existsb (fun l => match l with LStr s => String.eqb s c | LInt _ => false end) idx = true
  <-> LStr c ∈ idx.
Proof.
  rewrite existsb_elem_of. split.
  - intros ([i|s] & Hl & Heq); [done|]. by apply String.eqb_eq in Heq as ->.
  - intros Hc. exists (LStr c). split; [done|]. apply String.eqb_refl.
Qed.

Lemma forallb_false_elem_of {A} (f : A -> bool) (l : list A) :
  forallb f l = false <-> exists x, x ∈ l /\ f x = false.
Proof.
  induction l as [|x l IH]; simpl.
  - split; [done | by intros (x & Hx%elem_of_nil & _)].
  - rewrite andb_false_iff, IH. split.
    + intros [Hx|(y & Hy & Hfy)]; [exists x | exists y]; split; try done;
        [by left | by right].
    + intros (y & [->|Hy]%elem_of_cons & Hfy); [by left | right; by exists y].
Qed.

(** X1.  On a frame with no column labelled [colnames],
    [expect_dataframe_to_have_columns] raises [AttributeError] for every list
    that holds a name, whether the frame has the named columns or not, and
    returns [False] for the empty list; it writes nothing. *)
Theorem have_columns_without_colnames (w : World) (columns : list string) :
  "colnames" ∉ df_columns (frame w) ->
  expect_dataframe_to_have_columns columns w
  = (w, match columns with
        | [] => Ok false
        | _ :: _ => Raise (AttributeError "colnames")
        end).
Proof.
  intros Hno. destruct columns as [|c columns].
  - apply have_columns_nil.
  - by apply have_columns_no_attribute.
Qed.

(** X2.  On a frame that has one column labelled [colnames], the names are
    looked up among the row labels of the frame, not among its column names:
    [expect_dataframe_to_have_columns] returns [True] exactly when some name
    of the list is not a row label (so [False] for the empty list), and it
    writes nothing. *)
Theorem have_columns_reads_row_index (w : World) (columns : list string) col :
  column_at (frame w) "colnames" col ->
  exists b,
    expect_dataframe_to_have_columns columns w = (w, Ok b) /\
    (b = true <-> exists c, c ∈ columns /\ LStr c ∉ index (frame w)).
Proof.
  intros Hcol. eexists. split.
  - apply have_columns_attribute. by apply df_getattr_column.
  - rewrite negb_true_iff. cbn [pd_contains]. split.
    + intros (c & Hc & Hcno)%forallb_false_elem_of. exists c. split; [done|].
      intros Hin%existsb_label. simpl in Hcno. congruence.
    + intros (c & Hc & Hno). apply not_true_is_false. intros Hall.
      apply Hno, existsb_label. by apply (proj1 (forallb_elem_of _ _) Hall).
Qed.

(** X3.  [expect_dataframe_to_have_columns],
    [expect_column_values_to_not_be_null] and
    [expect_column_mean_to_be_between] never write a diagnostic: whatever
    their arguments, and whether they return or raise, the world after the
    call is the world before. *)
Theorem silent_checks (isnull : value -> bool)
  (series_mean : Column -> result float) (w : World) :
  (forall columns, fst (expect_dataframe_to_have_columns columns w) = w) /\
  (forall c, fst (expect_column_values_to_not_be_null isnull c w) = w) /\
  (forall c lo hi, fst (expect_column_mean_to_be_between series_mean c lo hi w) = w).
Proof.
  split; [|split].
  - intros columns. destruct (df_getattr (frame w) "colnames") as [o|e] eqn:Hattr.
    + by rewrite (have_columns_attribute w o columns Hattr).
    + destruct columns as [|c columns].
      * by rewrite have_columns_nil.
      * by rewrite (have_columns_raise w e c columns Hattr).
  - intros c. unfold expect_column_values_to_not_be_null, bind, self, ret.
    by destruct (df_getitem (frame w) c).
  - intros c lo hi.
    unfold expect_column_mean_to_be_between, bind, self, lift, ret, raise.
    destruct (df_getitem (frame w) c) as [o|e]; [|done].
    by destruct (pd_mean series_mean o) as [[m|ms]|e].
Qed.


(** *** What the checks write *)

Lemma written_by_run {A} (m : M A) (w : World) msgs r :
  m w = (mkWorld (frame w) (stdout w ++ msgs), r) -> written_by m w = msgs.
Proof. intros Hrun. unfold written_by. rewrite Hrun. simpl. apply drop_app_length. Qed.

Lemma offenders (f : value -> bool) (l : list value) :
  NoDup (filter f (unique l)) /\
  (forall v, v ∈ filter f (unique l) <-> v ∈ l /\ f v = true).
Proof.
  split.
  - apply NoDup_filter, NoDup_unique.
  - intros v. rewrite list_elem_of_filter, elem_of_unique, Is_true_true. tauto.
Qed.

(** X4.  On a column of the frame, each of the three checks of the values
    against a set writes one message for each distinct offending value of
    the column, and nothing else: [expect_column_values_to_be_in_set] and
    [expect_column_values_to_be_a_subset_of] for the values that [in] does
    not find in the set, [expect_column_values_to_not_be_in_set] for the
    values that [in] finds in it. *)
Theorem value_checks_report_each_offender (eq_self : value -> bool)
  (w : World) c col (S : gset value) :
  column_at (frame w) c col ->
  (exists vs,
     written_by (expect_column_values_to_be_in_set eq_self c S) w
     = map (fun v => IsNotIn v S) vs /\
     NoDup vs /\
     forall v, v ∈ vs <-> v ∈ col_values col /\ py_in eq_self v S = false) /\
  (exists vs,
     written_by (expect_column_values_to_be_a_subset_of eq_self c S) w
     = map (fun v => ShouldNotBe v c) vs /\
     NoDup vs /\
     forall v, v ∈ vs <-> v ∈ col_values col /\ py_in eq_self v S = false) /\
  (exists vs,
     written_by (expect_column_values_to_not_be_in_set eq_self c S) w
     = map (fun v => IsIn v S) vs /\
     NoDup vs /\
     forall v, v ∈ vs <-> v ∈ col_values col /\ py_in eq_self v S = true).
Proof.
  intros Hcol.
  split; [|split]; eexists; (split; [|split]).
  - apply (written_by_run _ _ _ _ (in_set_run eq_self w c col S Hcol)).
  - apply offenders.
  - intros v. rewrite (proj2 (offenders _ _)). by rewrite negb_true_iff.
  - apply (written_by_run _ _ _ _ (subset_run eq_self w c col S Hcol)).
  - apply offenders.
  - intros v. rewrite (proj2 (offenders _ _)). by rewrite negb_true_iff.
  - apply (written_by_run _ _ _ _ (not_in_set_run eq_self w c col S Hcol)).
  - apply offenders.
  - intros v. by rewrite (proj2 (offenders _ _)).
Qed.

Lemma columns_equal_run_exact (w : World) L :
  expect_columns_to_be_equal L w
  = if bool_decide (df_columns (frame w) ≡ₚ L) then (w, Ok true)
    else (mkWorld (frame w)
            (stdout w ++
               (if Nat.eqb (length L) (length (df_columns (frame w))) then []
                else [ColumnCount (length (df_columns (frame w))) (length L)]) ++
               [MissesColumns
                  (List.filter
                     (fun c => negb (existsb (String.eqb c)
                                       (sorted (df_columns (frame w)))))
                     (sorted L))]),
          Ok false).
Proof.
  unfold expect_columns_to_be_equal, bind at 1, self. simpl.
  rewrite <- (bool_decide_ext _ _ (sorted_eq_iff (df_columns (frame w)) L)).
  destruct (decide (sorted (df_columns (frame w)) = sorted L)) as [Heq|Hne].
  - rewrite bool_decide_false by (by intros ?). by rewrite bool_decide_true.
  - rewrite bool_decide_true by done. rewrite bool_decide_false by done.
    unfold bind, when, print, ret.
    destruct (Nat.eqb (length L) (length (df_columns (frame w)))); simpl;
      by rewrite <- ?app_assoc.
Qed.

(** X5.  [expect_columns_to_be_equal] writes nothing when it returns [True].
    When the frame's column names are no rearrangement of the list, it
    writes the two counts if they differ, and then the names of the list that
    label no column of the frame: the empty list when the frame only has
    columns too many. *)
Theorem columns_equal_reports (w : World) (L : list string) :
  (df_columns (frame w) ≡ₚ L -> written_by (expect_columns_to_be_equal L) w = []) /\
  (~ df_columns (frame w) ≡ₚ L ->
   exists missing,
     (forall c, c ∈ missing <-> c ∈ L /\ c ∉ df_columns (frame w)) /\
     written_by (expect_columns_to_be_equal L) w
     = (if bool_decide (length L = length (df_columns (frame w))) then []
        else [ColumnCount (length (df_columns (frame w))) (length L)])
       ++ [MissesColumns missing]).
Proof.
  split.
  - intros Hp. unfold written_by. rewrite columns_equal_run_exact.
    rewrite bool_decide_true by done. simpl. apply drop_all.
  - intros Hp. pose proof (columns_equal_run_exact w L) as Hrun.
    rewrite bool_decide_false in Hrun by done.
    rewrite (written_by_run _ _ _ _ Hrun).
    exists (List.filter
              (fun c => negb (existsb (String.eqb c) (sorted (df_columns (frame w)))))
              (sorted L)).
    split; [|f_equal].
    + intros c. rewrite list_elem_of_In, filter_In, <- list_elem_of_In.
      rewrite (sorted_perm L), negb_true_iff, existsb_eqb_false.
      by rewrite (sorted_perm (df_columns (frame w))).
    + destruct (Nat.eqb_spec (length L) (length (df_columns (frame w)))).
      * by rewrite bool_decide_true.
      * by rewrite bool_decide_false.
Qed.

Lemma schema_body_exact (dtype_eq : dtype -> target -> bool)
  (expected_schema : dict target) k acc (w : World) col t :
  column_at (frame w) k col -> dict_get expected_schema k = Some t ->
  schema_loop_body dtype_eq expected_schema k acc w
  = (mkWorld (frame w)
       (stdout w ++ schema_mismatches dtype_eq (frame w) expected_schema [k]),
     Ok (acc ++ [dtype_eq (col_dtype col) t])).
Proof.
  unfold column_at, schema_loop_body, schema_mismatches, bind, self, lift,
    dict_getitem, when, print, ret.
  intros Hcol Ht. simpl. rewrite Hcol, Ht. simpl.
  destruct (dtype_eq (col_dtype col) t); simpl; [|done].
  by rewrite world_eta.
Qed.

Lemma schema_loop_exact (dtype_eq : dtype -> target -> bool)
  (expected_schema : dict target) ks acc (w : World) :
  (forall k, k ∈ ks -> exists col, column_at (frame w) k col) ->
  (forall k, k ∈ ks -> k ∈ dict_keys expected_schema) ->
  for_ ks acc (schema_loop_body dtype_eq expected_schema) w
  = (mkWorld (frame w)
       (stdout w ++ schema_mismatches dtype_eq (frame w) expected_schema ks),
     Ok (acc ++ map (schema_entry_ok dtype_eq (frame w) expected_schema) ks)).
Proof.
  revert acc w. induction ks as [|k ks IH]; intros acc w Hcols Hkeys.
  - simpl. unfold ret. by rewrite world_eta, app_nil_r.
  - destruct (Hcols k) as [col Hcol]; [by left|].
    destruct (proj1 (dict_get_keys expected_schema k)) as [t Ht]; [apply Hkeys; by left|].
    cbn [for_]. unfold bind.
    rewrite (schema_body_exact dtype_eq expected_schema k acc w col t Hcol Ht).
    rewrite IH.
    + cbn [frame stdout map]. unfold schema_entry_ok at 2, column_has_dtype.
      rewrite Ht, Hcol. rewrite <- !app_assoc. do 3 f_equal.
      unfold schema_mismatches. simpl. by rewrite app_nil_r.
    + intros k' Hk'. apply Hcols. by right.
    + intros k' Hk'. apply Hkeys. by right.
Qed.

Lemma elem_of_schema_mismatches (dtype_eq : dtype -> target -> bool)
  (df : DataFrame) (S : dict target) ks d :
  d ∈ schema_mismatches dtype_eq df S ks <->
  exists k t col,
    k ∈ ks /\ dict_get S k = Some t /\ column_at df k col /\
    dtype_eq (col_dtype col) t = false /\ d = WrongDtype k (col_dtype col) t.
Proof.
  unfold schema_mismatches, column_at.
  rewrite list_elem_of_In, in_flat_map. split.
  - intros (k & Hk%list_elem_of_In & Hd).
    destruct (df_getitem df k) as [[idx col|sub]|e] eqn:Hget; try done.
    destruct (dict_get S k) as [t|] eqn:Ht; [|done].
    destruct (dtype_eq (col_dtype col) t) eqn:Heq; [done|].
    destruct Hd as [<-|[]]. exists k, t, col. repeat split; try done.
    unfold df_getitem in *.
    destruct (List.filter _ (data df)) as [|[k' col'] [|p l]]; try done.
    by injection Hget as <- <-.
  - intros (k & t & col & Hk & Ht & Hcol & Heq & ->).
    exists k. split; [by apply list_elem_of_In|].
    rewrite Hcol, Ht, Heq. by left.
Qed.

(** X6.  For a schema whose keys all label columns of the frame,
    [expect_schema_to_be_equal] writes one message for each key whose column
    has another dtype than expected, naming the key and both types, in the
    order of the keys; it writes nothing exactly when it returns [True]. *)
Theorem schema_reports_each_mismatch (dtype_eq : dtype -> target -> bool)
  (w : World) (S : dict target) :
  (forall k, k ∈ dict_keys S -> exists col, column_at (frame w) k col) ->
  written_by (expect_schema_to_be_equal dtype_eq S) w
  = schema_mismatches dtype_eq (frame w) S (dict_keys S) /\
  (forall d,
     d ∈ written_by (expect_schema_to_be_equal dtype_eq S) w <->
     exists k t col,
       k ∈ dict_keys S /\ dict_get S k = Some t /\ column_at (frame w) k col /\
       dtype_eq (col_dtype col) t = false /\ d = WrongDtype k (col_dtype col) t) /\
  (result_of (expect_schema_to_be_equal dtype_eq S) w = Ok true <->
   written_by (expect_schema_to_be_equal dtype_eq S) w = []).
Proof.
  intros Hcols.
  assert (expect_schema_to_be_equal dtype_eq S w
          = (mkWorld (frame w)
               (stdout w ++ schema_mismatches dtype_eq (frame w) S (dict_keys S)),
             Ok (forallb (schema_entry_ok dtype_eq (frame w) S) (dict_keys S))))
    as Hrun.
  { rewrite expect_schema_unfold. unfold bind.
    rewrite (schema_loop_exact dtype_eq S (dict_keys S) [] w Hcols) by done.
    unfold ret. simpl. by rewrite all_map. }
  rewrite (written_by_run _ _ _ _ Hrun).
  split; [done|]. split; [apply elem_of_schema_mismatches|].
  unfold result_of. rewrite Hrun. simpl. split.
  - intros [= Hall]. apply elem_of_nil_inv. intros d Hd.
    apply elem_of_schema_mismatches in Hd
      as (k & t & col & Hk & Ht & Hcol & Hne & _).
    apply (proj1 (forallb_elem_of _ _) Hall), schema_entry_ok_true in Hk
      as (t' & col' & Ht' & Hget & Heq).
    unfold column_at in Hcol. congruence.
  - intros Hnil. f_equal. apply forallb_elem_of. intros k Hk.
    destruct (Hcols k Hk) as [col Hcol].
    destruct (proj1 (dict_get_keys S k) Hk) as [t Ht].
    apply schema_entry_ok_true. exists t, col. repeat split; try done.
    destruct (dtype_eq (col_dtype col) t) eqn:Heq; [done|].
    assert (WrongDtype k (col_dtype col) t
            ∈ schema_mismatches dtype_eq (frame w) S (dict_keys S)) as Hin.
    { apply elem_of_schema_mismatches. by exists k, t, col. }
    rewrite Hnil in Hin. by apply elem_of_nil in Hin.
Qed.


(** *** How the value checks combine *)

Lemma bool_eq_iff (b b' : bool) : (b = true <-> b' = true) -> b = b'.
Proof. destruct b, b'; intros [H1 H2]; try done; [by rewrite H1 | by rewrite H2]. Qed.

(** X7.  On a column of the frame, the permitted sets of
    [expect_column_values_to_be_in_set] combine by intersection and the
    forbidden sets of [expect_column_values_to_not_be_in_set] by union: the
    check against [S1 ∩ S2] (against [S1 ∪ S2]) returns the conjunction of
    the checks against [S1] and against [S2].  So a larger permitted set
    keeps [True], and so does a smaller forbidden set. *)
Theorem value_checks_combine (eq_self : value -> bool)
  (w : World) c col (S1 S2 : gset value) :
  column_at (frame w) c col ->
  exists b1 b2 n1 n2,
    result_of (expect_column_values_to_be_in_set eq_self c S1) w = Ok b1 /\
    result_of (expect_column_values_to_be_in_set eq_self c S2) w = Ok b2 /\
    result_of (expect_column_values_to_be_in_set eq_self c (S1 ∩ S2)) w
    = Ok (b1 && b2) /\
    result_of (expect_column_values_to_not_be_in_set eq_self c S1) w = Ok n1 /\
    result_of (expect_column_values_to_not_be_in_set eq_self c S2) w = Ok n2 /\
    result_of (expect_column_values_to_not_be_in_set eq_self c (S1 ∪ S2)) w
    = Ok (n1 && n2) /\
    (S1 ⊆ S2 -> b1 = true -> b2 = true) /\
    (S1 ⊆ S2 -> n2 = true -> n1 = true).
Proof.
  intros Hcol. unfold result_of.
  rewrite !(in_set_run eq_self w c col _ Hcol),
    !(not_in_set_run eq_self w c col _ Hcol). simpl.
  do 4 eexists. repeat split.
  - f_equal. apply bool_eq_iff.
    rewrite andb_true_iff, !forallb_py_in. set_solver.
  - f_equal. apply bool_eq_iff.
    rewrite andb_true_iff, !negb_true_iff.
    rewrite <- !not_true_iff_false, !existsb_py_in. set_solver.
  - intros Hsub. rewrite !forallb_py_in. set_solver.
  - intros Hsub. rewrite !negb_true_iff.
    rewrite <- !not_true_iff_false, !existsb_py_in. set_solver.
Qed.

(** X8.  A column of the frame that holds a value cannot pass both
    [expect_column_values_to_be_in_set] and
    [expect_column_values_to_not_be_in_set] for the same set: when the first
    returns [True] the second returns [False]. *)
Theorem in_set_excludes_not_in_set (eq_self : value -> bool)
  (w : World) c col (S : gset value) :
  column_at (frame w) c col ->
  col_values col <> [] ->
  result_of (expect_column_values_to_be_in_set eq_self c S) w = Ok true ->
  result_of (expect_column_values_to_not_be_in_set eq_self c S) w = Ok false.
Proof.
  intros Hcol Hne. unfold result_of.
  rewrite (in_set_run eq_self w c col S Hcol),
    (not_in_set_run eq_self w c col S Hcol). simpl.
  intros [= Hall]. f_equal. apply negb_false_iff, existsb_py_in.
  rewrite forallb_py_in in Hall.
  destruct (col_values col) as [|v vs] eqn:Hvs; [done|].
  exists v. split; [by left|]. apply Hall. by left.
Qed.

(** X9.  The answer of [expect_columns_to_be_equal] depends neither on the
    order of the names in the list nor on the order of the frame's columns. *)
Theorem columns_equal_ignores_order (w w' : World) (L L' : list string) :
  df_columns (frame w) ≡ₚ df_columns (frame w') ->
  L ≡ₚ L' ->
  result_of (expect_columns_to_be_equal L) w
  = result_of (expect_columns_to_be_equal L') w'.
Proof.
  intros Hcols HL. rewrite !columns_equal_result. f_equal.
  apply bool_decide_ext. by rewrite Hcols, HL.
Qed.

(** *** The mean and its bounds *)

(** X10.  On a column that has a mean, widening the range keeps the answer
    [True]: when [expect_column_mean_to_be_between c lo hi] returns [True],
    so does the check with any lower bound [lo' <= lo] and any upper bound
    [hi' >= hi]. *)
Theorem mean_between_widens (series_mean : Column -> result float)
  (w : World) c col m lo hi lo' hi' :
  column_at (frame w) c col ->
  series_mean col = Ok m ->
  SFleb lo' lo = true ->
  SFleb hi hi' = true ->
  result_of (expect_column_mean_to_be_between series_mean c lo hi) w = Ok true ->
  result_of (expect_column_mean_to_be_between series_mean c lo' hi') w = Ok true.
Proof.
  intros Hcol Hm Hlo Hhi. unfold result_of.
  rewrite !(mean_run series_mean w c col m _ _ Hcol Hm). simpl.
  intros [= [Hl Hh]%andb_true_iff]. f_equal. apply andb_true_iff. split.
  - by apply (SFleb_trans lo' lo m).
  - by apply (SFleb_trans m hi hi').
Qed.

(** X11.  On a column that has a mean,
    [expect_column_mean_to_be_between] returns [False] whenever the mean is
    not a number (as for a column with no value), and whenever
    [strict_min <= strict_max] does not hold: the bounds are the wrong way
    round, or one of them is not a number. *)
Theorem mean_between_never_true (series_mean : Column -> result float)
  (w : World) c col m lo hi :
  column_at (frame w) c col ->
  series_mean col = Ok m ->
  m = S754_nan \/ SFleb lo hi = false ->
  result_of (expect_column_mean_to_be_between series_mean c lo hi) w = Ok false.
Proof.
  intros Hcol Hm Hbad. unfold result_of.
  rewrite (mean_run series_mean w c col m lo hi Hcol Hm). simpl. f_equal.
  destruct Hbad as [->|Hrange].
  - by rewrite SFleb_nan_r.
  - apply not_true_is_false. intros [Hl Hh]%andb_true_iff.
    by rewrite (SFleb_trans lo m hi Hl Hh) in Hrange.
Qed.

(** *** Edge cases *)

(** X12.  A column of the frame with no value passes every check of its
    values: it has no null value, all its values are in every set, and none
    is in any set; nothing is written. *)
Theorem empty_column_passes (isnull eq_self : value -> bool) (w : World) c col
  (S : gset value) :
  column_at (frame w) c col ->
  col_values col = [] ->
  expect_column_values_to_not_be_null isnull c w = (w, Ok true) /\
  expect_column_values_to_be_in_set eq_self c S w = (w, Ok true) /\
  expect_column_values_to_be_a_subset_of eq_self c S w = (w, Ok true) /\
  expect_column_values_to_not_be_in_set eq_self c S w = (w, Ok true).
Proof.
  intros Hcol Hnil.
  rewrite (not_null_run isnull w c col Hcol), (in_set_run eq_self w c col S Hcol),
    (subset_run eq_self w c col S Hcol), (not_in_set_run eq_self w c col S Hcol), Hnil.
  simpl. by rewrite world_eta.
Qed.

Lemma getitem_frame_labels (df sub : DataFrame) c :
  df_getitem df c = Ok (PFrame sub) ->
  df_columns sub <> [] /\ forall l, l ∈ df_columns sub -> l = c.
Proof.
  unfold df_getitem, df_columns.
  destruct (List.filter _ (data df)) as [|[k col] [|p l]] eqn:Hf; try done.
  intros [= <-]. cbn [data]. split; [done|].
  intros l' Hl'. apply list_elem_of_In, in_map_iff in Hl' as ([k' col'] & <- & Hin).
  rewrite <- Hf in Hin. apply filter_In in Hin as [_ Heq].
  by apply String.eqb_eq in Heq.
Qed.

(** X13.  When several columns of the frame carry the label [c], [self[c]]
    is a frame and no check looks at the values:
    [expect_column_values_to_not_be_null] returns [True] for every label but
    the empty string, whatever the columns hold; the three checks against a
    set raise ([AttributeError] for the missing [unique], [TypeError] when
    the label itself is [unique]); and the check of the mean raises. *)
Theorem repeated_label_checks (isnull eq_self : value -> bool)
  (series_mean : Column -> result float) (w : World) c sub (S : gset value) lo hi :
  df_getitem (frame w) c = Ok (PFrame sub) ->
  result_of (expect_column_values_to_not_be_null isnull c) w
  = Ok (negb (String.eqb c "")) /\
  result_of (expect_column_values_to_be_in_set eq_self c S) w
  = Raise (if String.eqb c "unique" then TypeError else AttributeError "unique") /\
  result_of (expect_column_values_to_be_a_subset_of eq_self c S) w
  = Raise (if String.eqb c "unique" then TypeError else AttributeError "unique") /\
  result_of (expect_column_values_to_not_be_in_set eq_self c S) w
  = Raise (if String.eqb c "unique" then TypeError else AttributeError "unique") /\
  exists e, result_of (expect_column_mean_to_be_between series_mean c lo hi) w
            = Raise e.
Proof.
  intros Hget. destruct (getitem_frame_labels _ _ _ Hget) as [Hne Hall].
  assert (pd_unique (PFrame sub)
          = Raise (if String.eqb c "unique" then TypeError else AttributeError "unique"))
    as Huniq.
  { cbn [pd_unique]. unfold df_getattr.
    destruct (existsb (String.eqb "unique") (df_columns sub)) eqn:Hex.
    - apply existsb_eqb_true in Hex. rewrite <- (Hall _ Hex), String.eqb_refl.
      destruct (df_getitem sub "unique") as [o|e] eqn:Hsub; [done|].
      by apply df_getitem_Raise in Hsub as [_ Hno].
    - destruct (String.eqb_spec c "unique") as [->|_]; [|done].
      apply existsb_eqb_false in Hex. destruct (df_columns sub) as [|l ls]; [done|].
      exfalso. apply Hex. rewrite (Hall l) by (by left). by left. }
  unfold result_of, expect_column_values_to_not_be_null,
    expect_column_values_to_be_in_set, expect_column_values_to_be_a_subset_of,
    expect_column_values_to_not_be_in_set, expect_column_mean_to_be_between,
    bind, self, lift, ret, raise.
  rewrite Hget, Huniq. simpl. repeat split.
  - f_equal. rewrite all_map. destruct (String.eqb_spec c "") as [->|Hc]; simpl.
    + apply not_true_is_false. rewrite forallb_elem_of. intros Hf.
      destruct (df_columns sub) as [|l ls]; [done|].
      specialize (Hf l). rewrite (Hall l) in Hf by (by left).
      discriminate Hf. by left.
    + apply forallb_elem_of. intros l Hl. rewrite (Hall l Hl).
      by apply negb_true_iff, String.eqb_neq.
  - destruct (frame_means series_mean (data sub)) as [ms|e]; by eexists.
Qed.

(** *** One check after another *)

(** X14.  Checks do not interfere: after any check, every check returns
    what it returns when run first and writes the same messages; the output
    after both is the output before, then the messages of the first, then
    those of the second; and the frame is still the same. *)
Theorem checks_do_not_interfere (isnull eq_self : value -> bool)
  (series_mean : Column -> result float) (dtype_eq : dtype -> target -> bool)
  (c1 c2 : check) (w : World) :
  result_of (run_check isnull dtype_eq series_mean eq_self c2)
    (fst (run_check isnull dtype_eq series_mean eq_self c1 w))
  = result_of (run_check isnull dtype_eq series_mean eq_self c2) w /\
  written_by (run_check isnull dtype_eq series_mean eq_self c2)
    (fst (run_check isnull dtype_eq series_mean eq_self c1 w))
  = written_by (run_check isnull dtype_eq series_mean eq_self c2) w /\
  stdout (fst (run_check isnull dtype_eq series_mean eq_self c2
                 (fst (run_check isnull dtype_eq series_mean eq_self c1 w))))
  = stdout w ++ written_by (run_check isnull dtype_eq series_mean eq_self c1) w
             ++ written_by (run_check isnull dtype_eq series_mean eq_self c2) w /\
  frame (fst (run_check isnull dtype_eq series_mean eq_self c2
                (fst (run_check isnull dtype_eq series_mean eq_self c1 w))))
  = frame w.
Proof.
  destruct (reads_only_run_check eq_self isnull series_mean dtype_eq c1 (frame w))
    as (msgs1 & r1 & Hrun1).
  destruct (reads_only_run_check eq_self isnull series_mean dtype_eq c2 (frame w))
    as (msgs2 & r2 & Hrun2).
  assert (mkWorld (frame w) (stdout w) = w) as Heta by (by destruct w).
  pose proof (Hrun1 (stdout w)) as H1. rewrite Heta in H1.
  pose proof (Hrun2 (stdout w)) as H2. rewrite Heta in H2.
  pose proof (Hrun2 (stdout w ++ msgs1)) as H21.
  unfold result_of, written_by. rewrite H1. cbn [fst]. rewrite H21, H2.
  cbn [fst snd frame stdout]. rewrite !drop_app_length.
  repeat split; try done. by rewrite <- app_assoc.
Qed.


Lemma getitem_series_index (df : DataFrame) c idx col :
  df_getitem df c = Ok (PSeries idx col) -> column_at df c col.
Proof.
  unfold column_at, df_getitem.
  destruct (List.filter _ (data df)) as [|[k col'] [|p l]]; try done.
  by intros [= <- <-].
Qed.

(** X15.  [expect_column_values_to_be_in_set] and
    [expect_column_values_to_be_a_subset_of] end the same way on every frame,
    column name and set: with the same boolean, or with the same exception
    when the name labels no column or several. *)
Theorem in_set_and_subset_agree (eq_self : value -> bool)
  (w : World) c (S : gset value) :
  result_of (expect_column_values_to_be_in_set eq_self c S) w
  = result_of (expect_column_values_to_be_a_subset_of eq_self c S) w.
Proof.
  destruct (df_getitem (frame w) c) as [[idx col|sub]|e] eqn:Hget.
  - apply getitem_series_index in Hget. unfold result_of.
    by rewrite (in_set_run eq_self w c col S Hget), (subset_run eq_self w c col S Hget).
  - unfold result_of, expect_column_values_to_be_in_set,
      expect_column_values_to_be_a_subset_of, bind, self, lift.
    rewrite Hget. cbn [pd_unique]. by destruct (df_getattr sub "unique").
  - unfold result_of, expect_column_values_to_be_in_set,
      expect_column_values_to_be_a_subset_of, bind, self.
    by rewrite Hget.
Qed.

End MoreFacts.

(** *** Instances of the further properties *)

(** The frame with columns [A] and [B] has no column labelled [colnames]. *)
Lemma have_columns_without_colnames_witness :
  expect_dataframe_to_have_columns ["A"; "B"] (fresh df_AB)
  = (fresh df_AB, Raise (AttributeError "colnames")).
Proof.
  apply (have_columns_without_colnames (fresh df_AB) ["A"; "B"]).
  by apply (bool_decide_unpack _).
Defined.

(** The rows of [df_colnames] are labelled [A] and [B]: the name [C] is
    no row label. *)
Lemma have_columns_reads_row_index_witness :
  exists b,
    expect_dataframe_to_have_columns ["A"; "C"] (fresh df_colnames)
    = (fresh df_colnames, Ok b) /\
    (b = true <-> exists c, c ∈ ["A"; "C"] /\ LStr c ∉ index (frame (fresh df_colnames))).
Proof.
  exact (have_columns_reads_row_index (fresh df_colnames) ["A"; "C"]
           (int_column [1; 2]%Z) eq_refl).
Defined.

(** The values 2 and 3 of [A] are outside the set. *)
Lemma value_checks_report_each_offender_witness :
  exists vs,
    written_by (expect_column_values_to_be_in_set cell_eq_self "A" {[Some 1%Z]})
      (fresh df_AB)
    = map (fun v => IsNotIn v {[Some 1%Z]}) vs /\
    NoDup vs /\
    forall v, v ∈ vs <-> v ∈ col_values (int_column [1; 2; 3]%Z)
                         /\ py_in cell_eq_self v {[Some 1%Z]} = false.
Proof.
  exact (proj1 (value_checks_report_each_offender cell_eq_self (fresh df_AB) "A"
                  (int_column [1; 2; 3]%Z) {[Some 1%Z]} eq_refl)).
Defined.

(** The frame has the column [B] too many and misses none of the list. *)
Lemma columns_equal_reports_witness :
  written_by (expect_columns_to_be_equal ["A"]) (fresh df_AB)
  = [ColumnCount 2 1; MissesColumns []].
Proof.
  destruct (proj2 (columns_equal_reports (fresh df_AB) ["A"]))
    as (missing & Hmissing & Hwritten).
  { intros Hp. apply Permutation_length in Hp. discriminate. }
  rewrite Hwritten. assert (missing = []) as ->; [|reflexivity].
  apply elem_of_nil_inv. intros c [Hc Hno]%Hmissing.
  apply list_elem_of_singleton in Hc as ->. apply Hno.
  by apply (bool_decide_unpack _).
Defined.

(** The schema expects floats in [B], which holds integers. *)
Lemma schema_reports_each_mismatch_witness :
  written_by
    (expect_schema_to_be_equal String.eqb [("A", "int64"); ("B", "float64")])
    (fresh df_AB)
  = [WrongDtype "B" "int64" "float64"].
Proof.
  destruct (schema_reports_each_mismatch String.eqb (fresh df_AB)
              [("A", "int64"); ("B", "float64")]) as [Hwritten _].
  - intros k Hk. apply elem_of_cons in Hk as [->|Hk]; [by eexists|].
    apply list_elem_of_singleton in Hk as ->. by eexists.
  - rewrite Hwritten. reflexivity.
Defined.

(** The values of [A] against the sets {1, 2, 3} and {1, 2, 3, 4}. *)
Lemma value_checks_combine_witness :
  result_of
    (expect_column_values_to_be_in_set cell_eq_self "A"
       ({[Some 1%Z; Some 2%Z; Some 3%Z]} ∩ {[Some 1%Z; Some 2%Z; Some 3%Z; Some 4%Z]}))
    (fresh df_AB)
  = Ok true.
Proof.
  destruct (value_checks_combine cell_eq_self (fresh df_AB) "A"
              (int_column [1; 2; 3]%Z)
              {[Some 1%Z; Some 2%Z; Some 3%Z]}
              {[Some 1%Z; Some 2%Z; Some 3%Z; Some 4%Z]} eq_refl)
    as (b1 & b2 & n1 & n2 & H1 & H2 & Hboth & _).
  rewrite Hboth. f_equal.
  apply (f_equal (fun r => match r with Ok b => b | Raise _ => false end)) in H1, H2.
  rewrite <- H1, <- H2. reflexivity.
Defined.

(** All values of [A] are in the set, so it is no forbidden set for [A]. *)
Lemma in_set_excludes_not_in_set_witness :
  result_of
    (expect_column_values_to_not_be_in_set cell_eq_self "A"
       {[Some 1%Z; Some 2%Z; Some 3%Z]})
    (fresh df_AB)
  = Ok false.
Proof.
  apply (in_set_excludes_not_in_set cell_eq_self (fresh df_AB) "A"
           (int_column [1; 2; 3]%Z));
    [reflexivity | discriminate | reflexivity].
Defined.

(** The frame [A], [B] and the list [B, A], against themselves reversed. *)
Lemma columns_equal_ignores_order_witness :
  result_of (expect_columns_to_be_equal ["B"; "A"]) (fresh df_AB)
  = result_of (expect_columns_to_be_equal ["A"; "B"]) (fresh df_AB).
Proof.
  apply (columns_equal_ignores_order (fresh df_AB) (fresh df_AB)).
  - reflexivity.
  - apply Permutation_swap.
Defined.

(** The mean 2 of [A] is between 2 and 3, and so between 1 and 10. *)
Lemma mean_between_widens_witness :
  result_of
    (expect_column_mean_to_be_between cell_mean "A" (float_of_Z 1) (float_of_Z 10))
    (fresh df_AB)
  = Ok true.
Proof.
  apply (mean_between_widens cell_mean (fresh df_AB) "A" (int_column [1; 2; 3]%Z)
           (float_of_Z 2) (float_of_Z 2) (float_of_Z 3)); reflexivity.
Defined.

(** The mean of a column with no value is not a number. *)
Lemma mean_between_never_true_witness :
  result_of
    (expect_column_mean_to_be_between cell_mean "A" (float_of_Z 0) (float_of_Z 10))
    (fresh df_empty)
  = Ok false.
Proof.
  apply (mean_between_never_true cell_mean (fresh df_empty) "A" (int_column [])
           S754_nan); [reflexivity | reflexivity | by left].
Defined.

(** The column [A] of [df_empty] has no value. *)
Lemma empty_column_passes_witness :
  expect_column_values_to_not_be_in_set cell_eq_self "A" {[Some 1%Z]} (fresh df_empty)
  = (fresh df_empty, Ok true).
Proof.
  apply (empty_column_passes cell_isnull cell_eq_self (fresh df_empty) "A"
           (int_column []) {[Some 1%Z]}); reflexivity.
Defined.

(** Two columns of [df_AA] carry the label [A]. *)
Lemma repeated_label_checks_witness :
  result_of (expect_column_values_to_not_be_null cell_isnull "A") (fresh df_AA)
  = Ok true.
Proof.
  apply (repeated_label_checks cell_isnull cell_eq_self cell_mean (fresh df_AA) "A"
           (mkDataFrame [LInt 0] [("A", int_column [1]%Z); ("A", int_column [4]%Z)])
           ∅ (float_of_Z 0) (float_of_Z 0)).
  reflexivity.
Defined.
